(** * sisua: dataset acquisition, the multi-omic store and latent dispatch

    A shallow embedding of
    - [sisua/models/latents.py] ([get_latent]),
    - [sisua/data/pbmc_CITEseq.py] and [sisua/data/data_loader/pbmc_CITEseq.py]
      (the two revisions of [read_CITEseq_PBMC]),
    - the [SingleCellOMIC] operations exercised by [tests/test_datasets.py]
      ([split], [corrupt], [normalize]),
    - [sisua/models/networks.py] and [sisua/models/modules/networks.py]
      (the layer lists of the two [DenseNetwork] classes),
    - [sisua/models/single_cell_model.py] (the class identifier [id]),
    - [sisua/utils/plot_utils.py] (the points of [plot_imputation]).

    Python text is modelled by [string]: a sequence of code points below 256.
    Exceptions are values of an error type; the file system is explicit
    state. *)

From Stdlib Require Import String Ascii List Bool Arith ZArith Lia Reals Lra.
From Stdlib Require QArith.
From stdpp Require Import gmap strings list pretty.

Open Scope string_scope.
Open Scope list_scope.

Set Default Proof Using "Type".

(* ===================================================================== *)
(** ** Python [str] operations used by the sources *)
(* ===================================================================== *)

Module PyStr.

(** [sub in s] *)
Fixpoint contains (sub s : string) : bool :=
  String.prefix sub s ||
  match s with
  | EmptyString => false
  | String _ t => contains sub t
  end.

(** [s.replace(old, new)] for a non-empty [old]: occurrences are found left
    to right and do not overlap; [skip] counts the characters of the current
    occurrence that are still to be dropped. *)
Fixpoint replace_from (old new : string) (skip : nat) (s : string) : string :=
  match s with
  | EmptyString => EmptyString
  | String c t =>
      match skip with
      | S k => replace_from old new k t
      | O =>
          if String.prefix old s
          then new +:+ replace_from old new (String.length old - 1) t
          else String c (replace_from old new 0 t)
      end
  end.

Definition replace (old new s : string) : string := replace_from old new 0 s.

(** [s.split(sep)] for a one-character separator: never the empty list. *)
Fixpoint split (sep : ascii) (s : string) : list string :=
  match s with
  | EmptyString => [EmptyString]
  | String c t =>
      if Ascii.eqb c sep then EmptyString :: split sep t
      else match split sep t with
           | [] => [String c EmptyString]
           | w :: ws => String c w :: ws
           end
  end.

(** [str.isspace] on code points below 256. *)
Definition is_space (c : ascii) : bool :=
  let n := nat_of_ascii c in
  (((9 <=? n) && (n <=? 13)) || ((28 <=? n) && (n <=? 32))
   || (n =? 133) || (n =? 160))%nat.

Fixpoint lstrip (s : string) : string :=
  match s with
  | EmptyString => EmptyString
  | String c t => if is_space c then lstrip t else s
  end.

Fixpoint rstrip (s : string) : string :=
  match s with
  | EmptyString => EmptyString
  | String c t =>
      match rstrip t with
      | EmptyString => if is_space c then EmptyString else String c EmptyString
      | r => String c r
      end
  end.

(** [s.strip()] *)
Definition strip (s : string) : string := rstrip (lstrip s).

(** [str.lower] on code points below 256: A-Z, and the Latin-1 capitals
    U+00C0..U+00DE except the multiplication sign U+00D7. *)
Definition lower_char (c : ascii) : ascii :=
  let n := nat_of_ascii c in
  if (((65 <=? n) && (n <=? 90))
      || ((192 <=? n) && (n <=? 222) && negb (n =? 215)))%nat
  then ascii_of_nat (n + 32) else c.

Fixpoint lower (s : string) : string :=
  match s with
  | EmptyString => EmptyString
  | String c t => String (lower_char c) (lower t)
  end.

(** [sep.join(l)] *)
Fixpoint join (sep : string) (l : list string) : string :=
  match l with
  | [] => EmptyString
  | [x] => x
  | x :: rest => x +:+ sep +:+ join sep rest
  end.

Example contains_ex : contains "HUMAN_" "MOUSE_HUMAN_X" = true.
Proof. reflexivity. Qed.

Example replace_ex : replace "HUMAN_" "" "HUMAN_CD3_HUMAN_E" = "CD3_E".
Proof. reflexivity. Qed.

Example split_ex : split "," "a,,b," = ["a"; ""; "b"; ""].
Proof. reflexivity. Qed.

Example strip_ex : strip "  a b
" = "a b".
Proof. reflexivity. Qed.

Example lower_ex : lower "DiAg" = "diag".
Proof. reflexivity. Qed.

(** *** Facts about [contains] and [replace] *)

Lemma prefix_empty (s : string) : String.prefix "" s = true.
Proof. destruct s; reflexivity. Qed.

Lemma contains_cons (sub : string) (c : ascii) (t : string) :
  contains sub (String c t)
  = String.prefix sub (String c t) || contains sub t.
Proof. reflexivity. Qed.

(** Text without an occurrence of [old] is left as it is. *)
Lemma replace_from_free (old new s : string) :
  contains old s = false -> replace_from old new 0 s = s.
Proof.
  induction s as [|c t IH]; [reflexivity|].
  rewrite contains_cons, orb_false_iff. intros [Hp Hc].
  cbn [replace_from]. rewrite Hp, IH by exact Hc. reflexivity.
Qed.

Lemma replace_marker_prefix (s : string) :
  contains "HUMAN_" s = false ->
  replace "HUMAN_" "" ("HUMAN_" +:+ s) = s.
Proof.
  intros H. unfold replace. cbv [String.append].
  cbn. rewrite prefix_empty. cbn.
  apply replace_from_free. exact H.
Qed.

(** *** Facts about [split] and [lower] *)

(** [s.split(sep)] has at least one field. *)
Lemma split_length (sep : ascii) (s : string) : 1 <= length (split sep s).
Proof.
  induction s as [|c t IH]; simpl; [lia|].
  destruct (Ascii.eqb c sep); simpl; [lia|].
  destruct (split sep t); simpl; lia.
Qed.

Lemma lower_char_idem (c : ascii) : lower_char (lower_char c) = lower_char c.
Proof.
  destruct c as [[] [] [] [] [] [] [] []]; vm_compute; reflexivity.
Qed.

Lemma lower_idem (s : string) : lower (lower s) = lower s.
Proof.
  induction s as [|c t IH]; simpl; [reflexivity|].
  rewrite lower_char_idem, IH. reflexivity.
Qed.


End PyStr.

(* ===================================================================== *)
(** ** [sisua/models/latents.py] *)
(* ===================================================================== *)

Module Latents.

(** The four latent layer classes of the module. *)
Inductive latent_class : Type :=
| NormalLatent
| NormalDiagLatent
| MixedNormalLatent
| DirichletLatent.

Inductive exn : Type :=
| ValueError (msg : string).

(** [_latent_map]: a dict literal; the keys keep their insertion order,
    which the error message prints. *)
Definition _latent_map : list (string * latent_class) :=
  [ ("normal", NormalLatent);
    ("diag", NormalDiagLatent);
    ("mixed", MixedNormalLatent);
    ("diri", DirichletLatent) ].

Fixpoint dict_get {V : Type} (d : list (string * V)) (k : string) : option V :=
  match d with
  | [] => None
  | (k', v) :: rest => if String.eqb k k' then Some v else dict_get rest k
  end.

Definition dict_keys {V : Type} (d : list (string * V)) : list string :=
  map fst d.

(** [get_latent(name)]; [name] is the text [str(name)]. *)
Definition get_latent (name : string) : exn + latent_class :=
  let name := PyStr.lower name in
  match dict_get _latent_map name with
  | None =>
      inl (ValueError ("Only support following latent: "
                         +:+ PyStr.join ", " (dict_keys _latent_map)
                         +:+ "; but given: '" +:+ name +:+ "'"))
  | Some cls => inr cls
  end.

Example get_latent_Diag : get_latent "DIAG" = inr NormalDiagLatent.
Proof. reflexivity. Qed.

Example get_latent_gauss :
  get_latent "Gauss" =
  inl (ValueError
         "Only support following latent: normal, diag, mixed, diri; but given: 'gauss'").
Proof. reflexivity. Qed.

Lemma dict_get_latent_map (k : string) :
  dict_get _latent_map k =
  if String.eqb k "normal" then Some NormalLatent
  else if String.eqb k "diag" then Some NormalDiagLatent
  else if String.eqb k "mixed" then Some MixedNormalLatent
  else if String.eqb k "diri" then Some DirichletLatent
  else None.
Proof. reflexivity. Qed.

(** C10. [get_latent] returns a class exactly when the lowercased name is
    one of 'normal', 'diag', 'mixed', 'diri' (and then the class registered
    under that key); for every other name it raises [ValueError]. *)
Theorem get_latent_raises_iff (name : string) :
  ((exists cls, get_latent name = inr cls) <->
     In (PyStr.lower name) ["normal"; "diag"; "mixed"; "diri"])
  /\ ((exists msg, get_latent name = inl (ValueError msg)) <->
        ~ In (PyStr.lower name) ["normal"; "diag"; "mixed"; "diri"])
  /\ (PyStr.lower name = "normal" <-> get_latent name = inr NormalLatent)
  /\ (PyStr.lower name = "diag" <-> get_latent name = inr NormalDiagLatent)
  /\ (PyStr.lower name = "mixed" <-> get_latent name = inr MixedNormalLatent)
  /\ (PyStr.lower name = "diri" <-> get_latent name = inr DirichletLatent).
Proof.
  unfold get_latent. rewrite dict_get_latent_map. cbn [In].
  destruct (String.eqb_spec (PyStr.lower name) "normal") as [E1 | H1];
    [rewrite E1 |
     destruct (String.eqb_spec (PyStr.lower name) "diag") as [E2 | H2];
     [rewrite E2 |
      destruct (String.eqb_spec (PyStr.lower name) "mixed") as [E3 | H3];
      [rewrite E3 |
       destruct (String.eqb_spec (PyStr.lower name) "diri") as [E4 | H4];
       [rewrite E4 |]]]];
    repeat split; intros;
    repeat match goal with
           | H : exists _, _ |- _ => destruct H
           | H : _ \/ _ |- _ => destruct H
           | H : False |- _ => destruct H
           end;
    try discriminate; try congruence; eauto 6;
    try (intros HF; intuition congruence);
    try (exfalso; intuition congruence).
Qed.

(** X10. [get_latent] sees a name only through its lowercase form:
    lowering the name beforehand changes nothing, so the lookup is
    case-insensitive and the name quoted in an error message is rejected in
    the same way. The error message lists the four keys in the order of the
    dict and quotes the lowercased name. *)
Theorem get_latent_normalises_name (name : string) :
  get_latent (PyStr.lower name) = get_latent name
  /\ (forall msg,
         get_latent name = inl (ValueError msg) ->
         msg = "Only support following latent: normal, diag, mixed, diri; "
                 +:+ "but given: '" +:+ PyStr.lower name +:+ "'"
         /\ get_latent (PyStr.lower name) = inl (ValueError msg)).
Proof.
  assert (E : get_latent (PyStr.lower name) = get_latent name).
  { unfold get_latent. rewrite PyStr.lower_idem. reflexivity. }
  split; [exact E|]. intros msg H. rewrite E. split; [|exact H].
  unfold get_latent in H.
  destruct (dict_get _latent_map (PyStr.lower name)); [discriminate|].
  injection H as <-. reflexivity.
Qed.


End Latents.

(* ===================================================================== *)
(** ** The aligned multi-omic store ([SingleCellOMIC]) *)
(* ===================================================================== *)

Module Omic.

Inductive error : Type :=
| ShapeMismatchError
| AlignmentViolationError
| KeyError (name : string).

Section Store.

(** The numeric type of the matrices (float32 in the program). *)
Context {F : Type}.

(** One measurement layer: a matrix, one row per sample, and the
    identities of its columns. *)
Record layer : Type := Layer {
  matrix : list (list F);
  feature_identities : list string
}.

(** The owning allocation: the sample axis and the layers indexed by it. *)
Record storage : Type := Storage {
  identities : list string;
  omics : gmap string layer
}.

Inductive backing : Type :=
| Owned
| View (indices : list nat).

Record store : Type := Store {
  arena : storage;
  backing_mode : backing;
  active_layer : string
}.

(** Rows of [l] at the positions [ix], in the order of [ix]. *)
Definition take_rows {A : Type} (ix : list nat) (l : list A) : list A :=
  omap (fun i => l !! i) ix.

(** Modelled from the spec: the sample-identity axis of a store; a view
    exposes the rows of the shared storage named by its index list. *)
Definition sample_identities (S : store) : list string :=
  match backing_mode S with
  | Owned => identities (arena S)
  | View ix => take_rows ix (identities (arena S))
  end.

(** Modelled from the spec: read access to a layer's matrix. *)
Definition numpy (S : store) (name : string) : option (list (list F)) :=
  match omics (arena S) !! name with
  | None => None
  | Some l =>
      Some match backing_mode S with
           | Owned => matrix l
           | View ix => take_rows ix (matrix l)
           end
  end.

(** Modelled from the spec: the constructor [SingleCellOMIC(X, cell_id,
    gene_id, omic)], missing from the sources. The row count of the primary
    matrix must be the number of sample identities. *)
Definition SingleCellOMIC (X : list (list F)) (cell_id gene_id : list string)
    (omic : string) : error + store :=
  if negb (length X =? length cell_id)%nat then inl ShapeMismatchError
  else inr (Store (Storage cell_id {[ omic := Layer X gene_id ]}) Owned omic).

(** Modelled from the spec: [add_layer(name, matrix, feature-identities)],
    called [add_omic] by the loader; it fails with [ShapeMismatchError] if
    [matrix.rows != len(sample-identities)]. *)
Definition add_omic (S : store) (name : string) (X : list (list F))
    (var_names : list string) : error + store :=
  if negb (length X =? length (sample_identities S))%nat
  then inl ShapeMismatchError
  else inr (Store (Storage (identities (arena S))
                     (<[ name := Layer X var_names ]> (omics (arena S))))
              (backing_mode S) (active_layer S)).

(** The rows of a matrix of the shared storage that a store exposes. *)
Definition visible {A : Type} (S : store) (l : list A) : list A :=
  match backing_mode S with
  | Owned => l
  | View ix => take_rows ix l
  end.

(** The positions of the shared storage that a store exposes, in order. *)
Definition positions (S : store) : list nat :=
  match backing_mode S with
  | Owned => seq 0 (length (identities (arena S)))
  | View ix => ix
  end.

(** Modelled from the spec: [copy()] "always produces an owned store with
    independently-storage-backed matrices". *)
Definition copy (S : store) : store :=
  Store (Storage (sample_identities S)
           ((fun l => Layer (visible S (matrix l)) (feature_identities l))
              <$> omics (arena S)))
        Owned (active_layer S).

(** A write to one layer: the store is first promoted to an owned one
    (copy-on-write), then the matrix of the layer is replaced. *)
Definition transform (f : list (list F) -> list (list F)) (name : string)
    (S : store) : store :=
  let C := copy S in
  Store (Storage (identities (arena C))
           (alter (fun l => Layer (f (matrix l)) (feature_identities l)) name
              (omics (arena C))))
        Owned (active_layer C).


(** *** [split] *)

Section Split.

(** The deterministic ordering criterion of [split]: for a seed, an
    arrangement of the positions [0 .. n-1]; and the number of samples
    that a ratio assigns to the first part. The spec fixes neither. *)
Variable ordering : nat -> nat -> list nat.
Variable train_count : R -> nat -> nat.
Hypothesis ordering_perm : forall seed n, ordering seed n ≡ₚ seq 0 n.

(** Modelled from the spec: [split(ratio, seed)] "partitions
    sample-identities into two disjoint, covering subsets without overlap;
    returns two view stores"; the arrangement depends on the seed only. *)
Definition split (ratio : R) (seed : nat) (S : store) : store * store :=
  let rows := positions S in
  let arranged := take_rows (ordering seed (length rows)) rows in
  let k := train_count ratio (length rows) in
  (Store (arena S) (View (firstn k arranged)) (active_layer S),
   Store (arena S) (View (skipn k arranged)) (active_layer S)).

End Split.

(** *** [normalize] *)

Section Normalize.

(** The numeric steps, as the numeric library computes them on float32:
    [log1p] on one entry, the division of a sample's row by its sum, and
    the standardization of the columns of a matrix. *)
Variable log1p : F -> F.
Variable divide_by_total : list F -> list F.
Variable standardize : list (list F) -> list (list F).

(** Modelled from the spec: [normalize(layer, log1p, scale, total)]
    "applies, in order, total-count scaling (divide each sample's row by
    its sum) if total, then log(1+x) transform if log1p, then feature-wise
    standardization if scale". *)
Definition normalize_matrix (do_log1p scale total : bool)
    (m : list (list F)) : list (list F) :=
  let m := if total then map divide_by_total m else m in
  let m := if do_log1p then map (map log1p) m else m in
  if scale then standardize m else m.

(** The call on a store bound to a variable: the pair of the store the
    variable holds afterwards and of the store returned. With [inplace]
    the layer of the store itself is replaced; without, a new store is
    returned. *)
Definition normalize (name : string) (inplace do_log1p scale total : bool)
    (S : store) : store * store :=
  let S' := transform (normalize_matrix do_log1p scale total) name S in
  (if inplace then S' else S, S').

End Normalize.

(** *** Facts about views and copies *)






Lemma numpy_copy (S : store) (name : string) :
  numpy (copy S) name = numpy S name.
Proof.
  unfold numpy, copy, visible. cbn. rewrite lookup_fmap.
  destruct (omics (arena S) !! name) as [l|]; reflexivity.
Qed.

Lemma numpy_transform (f : list (list F) -> list (list F)) (name other : string)
    (S : store) :
  numpy (transform f name S) other
  = if decide (name = other) then f <$> numpy S other else numpy S other.
Proof.
  unfold transform. unfold numpy at 1. cbn [arena omics backing_mode].
  rewrite lookup_alter. case_decide as Hn.
  - subst other. rewrite <- numpy_copy. unfold numpy, copy. cbn.
    destruct (_ !! name) as [l|]; reflexivity.
  - rewrite <- numpy_copy. unfold numpy, copy. cbn.
    destruct (_ !! other) as [l|]; reflexivity.
Qed.


(** *** [split] partitions the sample axis *)

Section SplitProperties.

Variable ordering : nat -> nat -> list nat.
Variable train_count : R -> nat -> nat.
Hypothesis ordering_perm : forall seed n, ordering seed n ≡ₚ seq 0 n.



End SplitProperties.

(** *** [normalize] with [log1p] only *)

Section NormalizeProperties.

Variable log1p : F -> F.
Variable divide_by_total : list F -> list F.
Variable standardize : list (list F) -> list (list F).

(** C9. [normalize(L, log1p=True, scale=False, total=False)] with
    [inplace=False] returns a store whose layer [L] is [log1p] of the
    original entry by entry and whose other layers are those of the
    store; the store itself is left as it was. *)
Theorem normalize_log1p_only (S : store) (L : string) (m : list (list F)) :
  numpy S L = Some m ->
  let r := normalize log1p divide_by_total standardize L false true false false S in
  numpy r.2 L = Some (map (map log1p) m)
  /\ (forall other, other <> L -> numpy r.2 other = numpy S other)
  /\ r.1 = S
  /\ sample_identities r.2 = sample_identities S.
Proof.
  intros Hm r. subst r. unfold normalize. cbn [fst snd].
  split; [|split; [|split]].
  - rewrite numpy_transform. rewrite decide_True by reflexivity.
    rewrite Hm. reflexivity.
  - intros other Hne. rewrite numpy_transform.
    rewrite decide_False by congruence. reflexivity.
  - reflexivity.
  - reflexivity.
Qed.

End NormalizeProperties.

(** *** [corrupt] *)

Section Corrupt.

Open Scope R_scope.

(** The float32 zero and the test [x == 0]. *)
Variable zero : F.
Variable is_zero : F -> bool.

(** Finite distributions: the outcomes of a random choice with their
    probabilities. A seed of the generator selects one outcome; the
    expectation over seeds is the expectation over the outcomes. *)
Definition dist (A : Type) : Type := list (R * A).

Definition dret {A : Type} (a : A) : dist A := [(1, a)].

Definition dbind {A B : Type} (d : dist A) (k : A -> dist B) : dist B :=
  flat_map (fun pa => map (fun qb => (pa.1 * qb.1, qb.2)) (k pa.2)) d.

Definition bernoulli (r : R) : dist bool := [(r, true); (1 - r, false)].

Fixpoint expect {A : Type} (f : A -> R) (d : dist A) : R :=
  match d with
  | [] => 0
  | pa :: rest => pa.1 * f pa.2 + expect f rest
  end.

(** Modelled from the spec: [corrupt(layer, dropout_rate, 'uniform',
    seed)] "independently, for each cell in the selected layer's matrix,
    zeroes it with probability dropout_rate". *)
Definition corrupt_entry (dropout_rate : R) (x : F) : dist F :=
  dbind (bernoulli dropout_rate) (fun b => dret (if b then zero else x)).

Fixpoint corrupt_row (dropout_rate : R) (row : list F) : dist (list F) :=
  match row with
  | [] => dret []
  | x :: xs =>
      dbind (corrupt_entry dropout_rate x) (fun x' =>
      dbind (corrupt_row dropout_rate xs) (fun xs' =>
      dret (x' :: xs')))
  end.

Fixpoint corrupt_matrix (dropout_rate : R) (m : list (list F))
  : dist (list (list F)) :=
  match m with
  | [] => dret []
  | row :: rest =>
      dbind (corrupt_row dropout_rate row) (fun row' =>
      dbind (corrupt_matrix dropout_rate rest) (fun rest' =>
      dret (row' :: rest')))
  end.

(** The corruption of one layer of a store; a name that is no layer of
    the store selects nothing. *)
Definition corrupt_layer (dropout_rate : R) (S : store) (name : string)
  : dist store :=
  match numpy S name with
  | None => dret S
  | Some m =>
      dbind (corrupt_matrix dropout_rate m) (fun m' =>
      dret (transform (fun _ => m') name S))
  end.




Definition entries (m : list (list F)) : nat := length (concat m).




(** **** Expectations *)

Lemma expect_dret {A : Type} (f : A -> R) (a : A) : expect f (dret a) = f a.
Proof. unfold dret. cbn. ring. Qed.

Lemma expect_app {A : Type} (f : A -> R) (d1 d2 : dist A) :
  expect f (d1 ++ d2) = expect f d1 + expect f d2.
Proof.
  induction d1 as [|pa d1 IH]; cbn; [ring|]. rewrite IH. ring.
Qed.

Lemma expect_scaled {A : Type} (f : A -> R) (p : R) (d : dist A) :
  expect f (map (fun qb => (p * qb.1, qb.2)) d) = p * expect f d.
Proof.
  induction d as [|qb d IH]; cbn; [ring|]. rewrite IH. ring.
Qed.

Lemma expect_dbind {A B : Type} (f : B -> R) (d : dist A) (k : A -> dist B) :
  expect f (dbind d k) = expect (fun a => expect f (k a)) d.
Proof.
  induction d as [|pa d IH]; [reflexivity|].
  unfold dbind in *. cbn [flat_map]. rewrite expect_app, expect_scaled, IH.
  reflexivity.
Qed.

Lemma expect_ext {A : Type} (f g : A -> R) (d : dist A) :
  (forall a, f a = g a) -> expect f d = expect g d.
Proof.
  intros H. induction d as [|pa d IH]; [reflexivity|].
  cbn. rewrite H, IH. reflexivity.
Qed.

(** The total probability of a distribution. *)
Definition mass {A : Type} (d : dist A) : R := expect (fun _ => 1) d.


Lemma mass_dret {A : Type} (a : A) : mass (dret a) = 1.
Proof. exact (expect_dret (fun _ => 1) a). Qed.

Lemma mass_dbind {A B : Type} (d : dist A) (k : A -> dist B) :
  mass d = 1 -> (forall a, mass (k a) = 1) -> mass (dbind d k) = 1.
Proof.
  intros Hd Hk. unfold mass. rewrite expect_dbind.
  rewrite (expect_ext _ (fun _ => 1)) by exact Hk. exact Hd.
Qed.

Lemma mass_bernoulli (r : R) : mass (bernoulli r) = 1.
Proof. unfold mass, bernoulli. cbn. ring. Qed.

Lemma mass_corrupt_entry (r : R) (x : F) : mass (corrupt_entry r x) = 1.
Proof.
  apply mass_dbind; [apply mass_bernoulli | intros b; apply mass_dret].
Qed.

Lemma mass_corrupt_row (r : R) (row : list F) : mass (corrupt_row r row) = 1.
Proof.
  induction row as [|x xs IH]; [apply mass_dret|].
  cbn [corrupt_row]. apply mass_dbind; [apply mass_corrupt_entry|].
  intros x'. apply mass_dbind; [exact IH | intros; apply mass_dret].
Qed.

Lemma mass_corrupt_matrix (r : R) (m : list (list F)) :
  mass (corrupt_matrix r m) = 1.
Proof.
  induction m as [|row rest IH]; [apply mass_dret|].
  cbn [corrupt_matrix]. apply mass_dbind; [apply mass_corrupt_row|].
  intros row'. apply mass_dbind; [exact IH | intros; apply mass_dret].
Qed.

Lemma mass_corrupt_layer (r : R) (S : store) (name : string) :
  mass (corrupt_layer r S name) = 1.
Proof.
  unfold corrupt_layer. destruct (numpy S name) as [m|]; [|apply mass_dret].
  apply mass_dbind; [apply mass_corrupt_matrix | intros; apply mass_dret].
Qed.

(** **** The expected sparsity after corruption *)

Hypothesis is_zero_zero : is_zero zero = true.











(** **** Corrupting layers of a store *)







End Corrupt.

End Store.

Arguments layer : clear implicits.
Arguments storage : clear implicits.
Arguments store : clear implicits.


(** *** The theorems at a small store *)

Module Example.

(** Three cells with a transcript layer and a protein layer of zeros. *)
Definition pbmc : store Z :=
  Store (Storage ["c1"; "c2"; "c3"]
           {[ "transcriptomic" := Layer [[1; 0]; [0; 0]; [2; 0]]%Z ["CD3E"; "None"];
              "proteomic" := Layer [[0]; [0]; [0]]%Z ["CD3"] ]})
        Owned "transcriptomic".

Definition is_zero (x : Z) : bool := (x =? 0)%Z.

(** An ordering criterion that ignores the seed: last position first. *)
Definition ordering (seed n : nat) : list nat := rev (seq 0 n).

Definition train_count (ratio : R) (n : nat) : nat := (4 * n) / 5.



Example pbmc_split :
  sample_identities (split ordering train_count (4 / 5) 0 pbmc).1 = ["c3"; "c2"]
  /\ sample_identities (split ordering train_count (4 / 5) 0 pbmc).2 = ["c1"]
  /\ numpy (split ordering train_count (4 / 5) 0 pbmc).2 "transcriptomic"
     = Some [[1; 0]]%Z.
Proof. repeat split; reflexivity. Qed.

End Example.


Lemma normalize_log1p_only_witness :
  numpy
    (normalize (fun x => Z.log2 (1 + x)) (fun row => row) (fun m => m)
       "transcriptomic" false true false false Example.pbmc).2
    "proteomic"
  = numpy Example.pbmc "proteomic".
Proof.
  refine (proj1 (proj2 (normalize_log1p_only (fun x => Z.log2 (1 + x))
                          (fun row => row) (fun m => m) Example.pbmc
                          "transcriptomic" [[1; 0]; [0; 0]; [2; 0]]%Z _))
            "proteomic" _).
  - reflexivity.
  - discriminate.
Defined.




End Omic.

(* ===================================================================== *)
(** ** [read_CITEseq_PBMC]: download, decrypt, verify, parse, align, persist *)
(* ===================================================================== *)

Module Loader.

Definition bytes : Type := list Byte.byte.

(** The exceptions the loader can end with. The three [assert] statements
    of the source are told apart by their message. *)
Inductive error : Type :=
| URLError (url : string)
| FileNotFoundError (path : string)
| FileExistsError (path : string)
| DecryptionError (path : string)
| MD5Mismatch (name : string)
| BadZipFile (name : string)
| InconsistentSampleCount
| IndexError
| ValueError (cell : string)
| CellOrderMismatch
| InvalidMD5 (path : string)
| KeyError (name : string)
| TypeError (name : string)
| StoreError (e : Omic.error).

Inductive result (A : Type) : Type :=
| Ok (a : A)
| Raise (e : error).

Arguments Ok {A} a.
Arguments Raise {A} e.

Definition rbind {A B : Type} (r : result A) (k : A -> result B) : result B :=
  match r with
  | Ok a => k a
  | Raise e => Raise e
  end.

Notation "x <~ c ;; k" := (rbind c (fun x => k))
  (at level 20, c at level 99, k at level 200, only parsing).
Notation "' pat <~ c ;; k" := (rbind c (fun x => match x with pat => k end))
  (at level 20, pat pattern, c at level 99, k at level 200, only parsing).

(** *** Constants of the module *)

(** [str(base64.decodebytes(_URL_...), 'utf-8')] *)
Definition _URL_5000 : string :=
  "https://s3.amazonaws.com/ai-datasets/GSE100866_PBMC.rawCountData.5000.hvg.csv.zip".
Definition _MD5_5000 : string := "46150f63e5a3c81d4f07445a759faa2b".
Definition _URL_FULL : string :=
  "https://s3.amazonaws.com/ai-datasets/GSE100866_PBMC.rawCountData.csv.zip".
Definition _MD5_FULL : string := "7481cc9d20adef4d06fdb601d9d99e77".
Definition _URL_PROTEIN : string :=
  "https://s3.amazonaws.com/ai-datasets/GSE100866_PBMC.rawCountProtein.csv.zip".
Definition _MD5_PROTEIN : string := "7dc5f64c2916d864568f1b739679717e".

Definition _MD5_DS_FULL : string :=
  "0fd9ff01e4cf4277cf775554bba16d91bb1eba45461115057f25474fafb6d"
  +:+ "ac111a927c8199c7a5ffa768787f2b811c5d102b0890180b80fa1a1fa4fa1"
  +:+ "800ca8719bc6f966cd4cbacdfdbdbd35c93ded".
Definition _MD5_DS_5000 : string :=
  "cf5776d29e9ef52812daf148f27dafc2ee4a9c747736a583ae2d556960d3e"
  +:+ "0a9f6dc3c25350c4424315bb01aea58e603d102b0890180b80fa1a1fa4fa1"
  +:+ "800ca8719bc6f966cd4cbacdfdbdbd35c93ded".

Definition _PASSWORD : string := "uef-czi".

Definition newline : ascii := "010"%char.

(** [os.path.join(a, b)] for a relative [b] and [a] without a trailing
    separator. *)
Definition os_path_join (a b : string) : string := a +:+ "/" +:+ b.

(** [os.path.basename(p)] *)
Definition os_path_basename (p : string) : string :=
  List.last (PyStr.split "/" p) "".

Example basename_full :
  os_path_basename _URL_FULL = "GSE100866_PBMC.rawCountData.csv.zip".
Proof. reflexivity. Qed.

(** *** Python dicts keyed by text, and [sorted] *)

Fixpoint dict_set {V : Type} (k : string) (v : V) (d : list (string * V))
  : list (string * V) :=
  match d with
  | [] => [(k, v)]
  | (k', v') :: rest =>
      if String.eqb k k' then (k, v) :: rest else (k', v') :: dict_set k v rest
  end.

Fixpoint insert_sorted {V : Type} (e : string * V) (l : list (string * V))
  : list (string * V) :=
  match l with
  | [] => [e]
  | e' :: rest =>
      if String.leb (fst e) (fst e') then e :: l else e' :: insert_sorted e rest
  end.

(** [sorted(d.items())]: the keys of a dict are distinct, so the order is
    the order of the keys. *)
Definition sorted {V : Type} (d : list (string * V)) : list (string * V) :=
  fold_right insert_sorted [] d.

(** *** numpy on lists *)

(** [np.array(rows).T] for rows of one length. *)
Definition np_array_T (rows : list (list string)) : list (list string) :=
  match rows with
  | [] => []
  | r :: _ => map (fun j => map (fun row => nth j row "") rows)
                (seq 0 (length r))
  end.

(** [M[:, mask]] on one row, and [v[mask]] on a vector: boolean-mask
    selection. *)
Fixpoint select {A : Type} (mask : list bool) (l : list A) : list A :=
  match mask, l with
  | b :: mask', x :: l' => if b then x :: select mask' l' else select mask' l'
  | _, _ => []
  end.

(** [np.all(a == b)] for two vectors of text. Vectors of different
    lengths do not compare equal. *)
Fixpoint np_all_eq (a b : list string) : bool :=
  match a, b with
  | [], [] => true
  | x :: a', y :: b' => String.eqb x y && np_all_eq a' b'
  | _, _ => false
  end.

Example np_array_T_ex :
  np_array_T [["id"; "c1"; "c2"]; ["g1"; "1"; "2"]]
  = [["id"; "g1"]; ["c1"; "1"]; ["c2"; "2"]].
Proof. reflexivity. Qed.

(** *** Facts about the numpy operations *)

Lemma np_all_eq_true (a b : list string) : np_all_eq a b = true <-> a = b.
Proof.
  revert b. induction a as [|x a IH]; intros [|y b]; simpl; try easy.
  rewrite andb_true_iff, String.eqb_eq, IH.
  split; [intros [-> ->]; reflexivity | intros H; inversion H; auto].
Qed.

Lemma np_all_eq_false (a b : list string) : np_all_eq a b = false <-> a <> b.
Proof.
  rewrite <- np_all_eq_true. destruct (np_all_eq a b); split; congruence.
Qed.

Lemma select_map_filter {A : Type} (f : A -> bool) (l : list A) :
  select (map f l) l = List.filter f l.
Proof.
  induction l as [|x l IH]; simpl; [reflexivity|].
  destruct (f x); rewrite IH; reflexivity.
Qed.

Lemma In_select {A : Type} (mask : list bool) (l : list A) (x : A) :
  In x (select mask l) -> In x l.
Proof.
  revert l. induction mask as [|b mask IH]; intros [|a l]; simpl; try easy.
  destruct b; simpl; intuition.
Qed.

Section Pipeline.

(** The numeric type of the matrices (float32 in the program), with the
    test [x == 0]. *)
Context {F : Type}.
Variable is_zero : F -> bool.

(** What the loader calls in the libraries it imports:
    - [float32]: the conversion of one cell of text by [astype('float32')];
    - [network]: the byte stream a URL serves, if the transfer succeeds;
    - [decrypt_aes], [md5_checksum]: [odin.utils.crypto];
    - [zip_read]: [zipfile.ZipFile]: the member names in [namelist()]
      order, each with [str(f.read(name), 'utf8')];
    - [get_md5_checksum]: [odin.fuel.Dataset.get_md5_checksum] of a
      dataset directory, given the excluded names. *)
Variable float32 : string -> option F.
Variable network : string -> option bytes.
Variable decrypt_aes : bytes -> string -> option bytes.
Variable md5_checksum : bytes -> string.
Variable zip_read : bytes -> option (list (string * string)).

(** The directories of [sisua.data.path]. *)
Variables DOWNLOAD_DIR PREPROCESSED_BASE_DIR DATA_DIR : string.

(** A file of a persisted dataset directory. *)
Inductive artifact : Type :=
| Matrix (m : list (list F))
| Labels (l : list string).

Variable get_md5_checksum : gmap string artifact -> list string -> string.

(** The file system: the downloaded archives by full path, the dataset
    directories by path (a directory exists when it has an entry), and the
    log of the URLs whose byte stream was transferred, newest first. *)
Record fs : Type := FS {
  downloads : gmap string bytes;
  datasets : gmap string (gmap string artifact);
  fetched : list string
}.

(** *** The monad of the loader: state and exceptions *)

Definition M (A : Type) : Type := fs -> result A * fs.

Definition ret {A : Type} (a : A) : M A := fun s => (Ok a, s).

Definition raise {A : Type} (e : error) : M A := fun s => (Raise e, s).

Definition bind {A B : Type} (c : M A) (k : A -> M B) : M B :=
  fun s =>
    match c s with
    | (Ok a, s') => k a s'
    | (Raise e, s') => (Raise e, s')
    end.

Definition lift {A : Type} (r : result A) : M A := fun s => (r, s).

Definition gets {A : Type} (f : fs -> A) : M A := fun s => (Ok (f s), s).

Notation "x <- c ;; k" := (bind c (fun x => k))
  (at level 20, c at level 99, k at level 200, only parsing).
Notation "' pat <- c ;; k" := (bind c (fun x => match x with pat => k end))
  (at level 20, pat pattern, c at level 99, k at level 200, only parsing).

(** *** File-system operations *)

(** [os.path.exists(os.path.join(dir, name))] *)
Definition path_exists (dir name : string) : M bool :=
  gets (fun s =>
          match datasets s !! dir with
          | Some d => bool_decide (is_Some (d !! name))
          | None => false
          end).

(** [shutil.rmtree(path)] *)
Definition rmtree (path : string) : M unit :=
  fun s =>
    match datasets s !! path with
    | None => (Raise (FileNotFoundError path), s)
    | Some _ => (Ok tt, FS (downloads s) (delete path (datasets s)) (fetched s))
    end.

(** [os.mkdir(path)] and [os.makedirs(path)] *)
Definition mkdir (path : string) : M unit :=
  fun s =>
    match datasets s !! path with
    | Some _ => (Raise (FileExistsError path), s)
    | None => (Ok tt, FS (downloads s) (<[ path := ∅ ]> (datasets s)) (fetched s))
    end.

(** Writing one file of a dataset directory. *)
Definition write_file (dir name : string) (a : artifact) : M unit :=
  fun s =>
    match datasets s !! dir with
    | None => (Raise (FileNotFoundError (os_path_join dir name)), s)
    | Some d =>
        (Ok tt,
         FS (downloads s) (<[ dir := <[ name := a ]> d ]> (datasets s)) (fetched s))
    end.

(** [Dataset(path, read_only=True)] *)
Definition Dataset (path : string) : M (gmap string artifact) :=
  fun s =>
    match datasets s !! path with
    | None => (Raise (FileNotFoundError path), s)
    | Some d => (Ok d, s)
    end.

(** Modelled from the spec: [download_file(filename, url, override=False)]
    of [sisua.data.utils] (and [get_file] of the older revision), missing
    from the sources: "If the local cache path does not exist, download the
    byte stream from the URL into it; if it exists, reuse it without
    re-downloading"; "a failed download leaves no partial cache artifact". *)
Definition download_file (filename url : string) : M unit :=
  fun s =>
    match downloads s !! filename with
    | Some _ => (Ok tt, s)
    | None =>
        match network url with
        | None => (Raise (URLError url), s)
        | Some b =>
            (Ok tt, FS (<[ filename := b ]> (downloads s)) (datasets s)
                      (url :: fetched s))
        end
    end.

(** *** Download *)

(** [zip([_URL_5000 if filtered_genes else _URL_FULL, _URL_PROTEIN],
         [_MD5_5000 if filtered_genes else _MD5_FULL, _MD5_PROTEIN])] *)
Definition archives (filtered_genes : bool) : list (string * string) :=
  combine [if filtered_genes then _URL_5000 else _URL_FULL; _URL_PROTEIN]
          [if filtered_genes then _MD5_5000 else _MD5_FULL; _MD5_PROTEIN].

(** The download loop; it fills the dict [download_files]. *)
Fixpoint download_all (download_path : string) (l : list (string * string))
    (download_files : list (string * (string * string)))
  : M (list (string * (string * string))) :=
  match l with
  | [] => ret download_files
  | (url, md5) :: rest =>
      let base_name := os_path_basename url in
      let path := os_path_join download_path base_name in
      _ <- download_file path url ;;
      download_all download_path rest
        (dict_set base_name (path, md5) download_files)
  end.

(** *** Extraction *)

(** The loop state: the set [n] and the lists [X] and [y]. *)
Definition lines_state : Type :=
  gset nat * list (list string) * list (list string).

(** One iteration of [for line in data.split('\n')]. *)
Definition read_line (name : string) (acc : lines_state) (line : string)
  : lines_state :=
  let '(n, X, y) := acc in
  if (String.length line =? 0)%nat then acc
  else
    let line := PyStr.split "," (PyStr.strip line) in
    let n := {[ length line ]} ∪ n in
    if PyStr.contains "Protein" name then (n, X, y ++ [line])
    else (n, X ++ [line], y).

(** One iteration of [for name in f.namelist()]. *)
Definition read_member (acc : lines_state) (member : string * string)
  : lines_state :=
  let '(name, data) := member in
  fold_left (read_line name) (PyStr.split newline data) acc.

(** One iteration of [for name, (path, md5) in sorted(download_files.items())]:
    decrypt, verify the checksum, then read the members. *)
Definition extract_archive (files : gmap string bytes) (acc : lines_state)
    (entry : string * (string * string)) : result lines_state :=
  let '(name, (path, md5)) := entry in
  match files !! path with
  | None => Raise (FileNotFoundError path)
  | Some encrypted =>
      match decrypt_aes encrypted _PASSWORD with
      | None => Raise (DecryptionError path)
      | Some binary_data =>
          let md5_ := md5_checksum binary_data in
          if negb (String.eqb md5_ md5) then Raise (MD5Mismatch name)
          else
            match zip_read binary_data with
            | None => Raise (BadZipFile name)
            | Some members => Ok (fold_left read_member members acc)
            end
      end
  end.

Fixpoint extract (files : gmap string bytes) (acc : lines_state)
    (entries : list (string * (string * string))) : result lines_state :=
  match entries with
  | [] => Ok acc
  | entry :: rest =>
      acc' <~ extract_archive files acc entry ;;
      extract files acc' rest
  end.

(** *** Post-processing *)

(** [v.astype('float32')] on a row of text. *)
Fixpoint astype_float32 (v : list string) : result (list F) :=
  match v with
  | [] => Ok []
  | c :: rest =>
      match float32 c with
      | None => Raise (ValueError c)
      | Some x => xs <~ astype_float32 rest ;; Ok (x :: xs)
      end
  end.

Fixpoint astype_float32_2d (m : list (list string)) : result (list (list F)) :=
  match m with
  | [] => Ok []
  | r :: rest =>
      r' <~ astype_float32 r ;;
      rest' <~ astype_float32_2d rest ;;
      Ok (r' :: rest')
  end.

(** The three lines shared by the gene and the protein table:
[[
    X = np.array(X).T
    X_row, X_col = X[1:, 0], X[0, 1:]
    X = X[1:, 1:].astype('float32')
]]
    [np.array([])] has a single axis, and so has no [X[1:, 0]]. *)
Definition read_table (lines : list (list string))
  : result (list string * list string * list (list F)) :=
  match np_array_T lines with
  | [] => Raise IndexError
  | first :: rest =>
      let X_row := map (hd "") rest in
      let X_col := tl first in
      X <~ astype_float32_2d (map (@tl string) rest) ;;
      Ok (X_row, X_col, X)
  end.

(** Modelled from the spec: [remove_allzeros_columns(matrix, colname)] of
    [sisua.data.utils], missing from the sources: "columns that are all-zero
    across every sample are dropped from the primary layer". *)
Definition remove_allzeros_columns (matrix : list (list F))
    (colname : list string) : list (list F) * list string :=
  let nonzero :=
    map (fun j =>
           existsb (fun row =>
                      match row !! j with
                      | Some x => negb (is_zero x)
                      | None => false
                      end) matrix)
        (seq 0 (length colname)) in
  (map (select nonzero) matrix, select nonzero colname).

(** What the build hands to the persistence step. *)
Record tables : Type := Tables {
  t_X : list (list F);
  t_X_col : list string;
  t_y : list (list F);
  t_y_col : list string;
  t_X_row : list string
}.

(** [sisua/data/data_loader/pbmc_CITEseq.py], lines 93-118. *)
Definition post_process (n : gset nat) (X y : list (list string))
  : result tables :=
  if negb (size n =? 1)%nat then Raise InconsistentSampleCount
  else
    '(X_row, X_col, X) <~ read_table X ;;
    let human_cols := map (PyStr.contains "HUMAN_") X_col in
    let X := map (select human_cols) X in
    let X_col := map (PyStr.replace "HUMAN_" "") (select human_cols X_col) in
    let '(X, X_col) := remove_allzeros_columns X X_col in
    '(y_row, y_col, y) <~ read_table y ;;
    if negb (np_all_eq X_row y_row) then Raise CellOrderMismatch
    else Ok (Tables X X_col y y_col X_row).

(** [sisua/data/pbmc_CITEseq.py], lines 93-115: the older revision keeps
    the labels of the surviving columns as they are and has no pruning of
    all-zero columns. *)
Definition legacy_post_process (n : gset nat) (X y : list (list string))
  : result tables :=
  if negb (size n =? 1)%nat then Raise InconsistentSampleCount
  else
    '(X_row, X_col, X) <~ read_table X ;;
    let human_cols := map (PyStr.contains "HUMAN_") X_col in
    let X := map (select human_cols) X in
    let X_col := List.filter (PyStr.contains "HUMAN_") X_col in
    '(y_row, y_col, y) <~ read_table y ;;
    if negb (np_all_eq X_row y_row) then Raise CellOrderMismatch
    else Ok (Tables X X_col y y_col X_row).

(** *** Persistence *)

(** Modelled from the spec: [save_to_dataset(path, X, X_col, y, y_col,
    rowname)] of [sisua.data.utils], missing from the sources: "persist
    them (primary matrix, per-layer auxiliary matrices, row/column labels)
    to the target path". *)
Definition save_to_dataset (path : string) (t : tables) : M unit :=
  _ <- write_file path "X" (Matrix (t_X t)) ;;
  _ <- write_file path "X_col" (Labels (t_X_col t)) ;;
  _ <- write_file path "y" (Matrix (t_y t)) ;;
  _ <- write_file path "y_col" (Labels (t_y_col t)) ;;
  write_file path "X_row" (Labels (t_X_row t)).

(** [sisua/data/pbmc_CITEseq.py], lines 117-136. The rows of [X] are
    appended to the memory-mapped file in batches of 1024; after [flush]
    and [close] the file holds them in order. *)
Definition legacy_save (path : string) (t : tables) : M unit :=
  _ <- write_file path "X" (Matrix (t_X t)) ;;
  _ <- write_file path "y" (Matrix (t_y t)) ;;
  _ <- write_file path "X_row" (Labels (t_X_row t)) ;;
  _ <- write_file path "X_col" (Labels (t_X_col t)) ;;
  write_file path "y_col" (Labels (t_y_col t)).

(** *** The preprocessed directories *)

Definition _CITEseq_PBMC_PREPROCESSED : string :=
  os_path_join DATA_DIR "PBMC_citeseq_preprocessed".
Definition _5000_PBMC_PREPROCESSED : string :=
  os_path_join DATA_DIR "PBMC_citeseq_5000_preprocessed".

Definition legacy_CITEseq_PBMC_PREPROCESSED : string :=
  os_path_join PREPROCESSED_BASE_DIR "PBMC_preprocessed".
Definition legacy_5000_PBMC_PREPROCESSED : string :=
  os_path_join PREPROCESSED_BASE_DIR "PBMC_5000_preprocessed".

Definition download_path (filtered_genes : bool) : string :=
  os_path_join DOWNLOAD_DIR
    ("PBMC_" +:+ (if filtered_genes then "5000" else "CITEseq") +:+ "_original").

(** *** The build: the body of [if not os.path.exists(.../'X')] *)

Definition build (filtered_genes : bool) (preprocessed_path : string) : M unit :=
  download_files <- download_all (download_path filtered_genes)
                      (archives filtered_genes) [] ;;
  files <- gets downloads ;;
  '(n, X, y) <- lift (extract files (∅, [], []) (sorted download_files)) ;;
  t <- lift (post_process n X y) ;;
  save_to_dataset preprocessed_path t.

Definition legacy_build (version_5000genes : bool) (preprocessed_path : string)
  : M unit :=
  download_files <- download_all (download_path version_5000genes)
                      (archives version_5000genes) [] ;;
  files <- gets downloads ;;
  '(n, X, y) <- lift (extract files (∅, [], []) (sorted download_files)) ;;
  t <- lift (legacy_post_process n X y) ;;
  legacy_save preprocessed_path t.

(** [ds[name]] for a matrix and for a vector of labels. *)
Definition ds_matrix (ds : gmap string artifact) (name : string)
  : result (list (list F)) :=
  match ds !! name with
  | None => Raise (KeyError name)
  | Some (Matrix m) => Ok m
  | Some (Labels _) => Raise (TypeError name)
  end.

Definition ds_labels (ds : gmap string artifact) (name : string)
  : result (list string) :=
  match ds !! name with
  | None => Raise (KeyError name)
  | Some (Labels l) => Ok l
  | Some (Matrix _) => Raise (TypeError name)
  end.

Definition of_store {A : Type} (r : Omic.error + A) : result A :=
  match r with
  | inl e => Raise (StoreError e)
  | inr a => Ok a
  end.

(** The [return] of the newer revision: the store over the persisted
    arrays. *)
Definition open_store (ds : gmap string artifact) : result (Omic.store F) :=
  X <~ ds_matrix ds "X" ;;
  cell_id <~ ds_labels ds "X_row" ;;
  gene_id <~ ds_labels ds "X_col" ;;
  sco <~ of_store (Omic.SingleCellOMIC X cell_id gene_id "transcriptomic") ;;
  y <~ ds_matrix ds "y" ;;
  y_col <~ ds_labels ds "y_col" ;;
  of_store (Omic.add_omic sco "proteomic" y y_col).

(** [sisua/data/data_loader/pbmc_CITEseq.py]: [read_CITEseq_PBMC]. The
    download directory is created when missing; the model keeps the
    downloaded files by their full path. *)
Definition read_CITEseq_PBMC (override filtered_genes : bool)
  : M (Omic.store F) :=
  let preprocessed_path :=
    if filtered_genes then _5000_PBMC_PREPROCESSED
    else _CITEseq_PBMC_PREPROCESSED in
  _ <- (if override
        then _ <- rmtree preprocessed_path ;; mkdir preprocessed_path
        else ret tt) ;;
  found <- path_exists preprocessed_path "X" ;;
  _ <- (if negb found then build filtered_genes preprocessed_path else ret tt) ;;
  ds <- Dataset preprocessed_path ;;
  lift (open_store ds).

(** [sisua/data/pbmc_CITEseq.py]: the older revision of
    [read_CITEseq_PBMC]; it returns the dataset directory after checking
    its checksum against the pinned one. *)
Definition legacy_read_CITEseq_PBMC (override version_5000genes : bool)
  : M (gmap string artifact) :=
  let preprocessed_path :=
    if version_5000genes then legacy_5000_PBMC_PREPROCESSED
    else legacy_CITEseq_PBMC_PREPROCESSED in
  _ <- (if override
        then _ <- rmtree preprocessed_path ;; mkdir preprocessed_path
        else ret tt) ;;
  found <- path_exists preprocessed_path "X" ;;
  _ <- (if negb found
        then legacy_build version_5000genes preprocessed_path
        else ret tt) ;;
  ds <- Dataset preprocessed_path ;;
  if negb (String.eqb (get_md5_checksum ds ["y_bin"; "y_prob"])
             (if version_5000genes then _MD5_DS_5000 else _MD5_DS_FULL))
  then
    _ <- rmtree preprocessed_path ;;
    raise (InvalidMD5 preprocessed_path)
  else ret ds.


(** *** Properties of the extraction and of the post-processing *)

(** The decrypted members of one downloaded archive. *)
Definition archive_members (files : gmap string bytes)
    (entry : string * (string * string)) : option (list (string * string)) :=
  match files !! (fst (snd entry)) with
  | None => None
  | Some encrypted =>
      match decrypt_aes encrypted _PASSWORD with
      | None => None
      | Some binary_data => zip_read binary_data
      end
  end.

(** The field counts of the non-empty lines of a list of members, as a
    set. *)
Definition field_count (line : string) : nat :=
  length (PyStr.split "," (PyStr.strip line)).

Definition nonempty_lines (members : list (string * string)) : list string :=
  List.filter (fun line => negb (String.length line =? 0)%nat)
    (concat (map (fun m => PyStr.split newline (snd m)) members)).

Definition field_counts (members : list (string * string)) : gset nat :=
  list_to_set (map field_count (nonempty_lines members)).

Lemma read_line_count (name line : string) (n : gset nat)
    (X y : list (list string)) :
  (read_line name (n, X, y) line).1.1
  = if (String.length line =? 0)%nat then n else {[ field_count line ]} ∪ n.
Proof.
  unfold read_line, field_count.
  destruct (String.length line =? 0)%nat; [reflexivity|].
  destruct (PyStr.contains "Protein" name); reflexivity.
Qed.

Lemma read_line_counts (name : string) (lines : list string)
    (acc : lines_state) :
  (fold_left (read_line name) lines acc).1.1
  = list_to_set
      (map field_count
         (List.filter (fun l => negb (String.length l =? 0)%nat) lines))
    ∪ acc.1.1.
Proof.
  revert acc. induction lines as [|l lines IH]; intros [[n X] y].
  - simpl. set_solver +.
  - cbn [fold_left]. rewrite IH, read_line_count. cbn [List.filter].
    destruct (String.length l =? 0)%nat; cbn [negb map list_to_set fst];
      set_solver +.
Qed.

Lemma read_member_counts (members : list (string * string))
    (acc : lines_state) :
  (fold_left read_member members acc).1.1 = field_counts members ∪ acc.1.1.
Proof.
  revert acc. induction members as [|[name data] members IH]; intros acc.
  - unfold field_counts, nonempty_lines. simpl. set_solver +.
  - cbn [fold_left]. rewrite IH. unfold read_member at 1.
    rewrite read_line_counts.
    unfold field_counts, nonempty_lines. simpl.
    rewrite List.filter_app, map_app, list_to_set_app_L. set_solver +.
Qed.

Lemma field_counts_app (ms1 ms2 : list (string * string)) :
  field_counts (ms1 ++ ms2) = field_counts ms1 ∪ field_counts ms2.
Proof.
  unfold field_counts, nonempty_lines.
  rewrite map_app, concat_app, List.filter_app, map_app, list_to_set_app_L.
  reflexivity.
Qed.

Lemma extract_archive_Ok (files : gmap string bytes) (acc acc' : lines_state)
    (name path md5 : string) :
  extract_archive files acc (name, (path, md5)) = Ok acc' ->
  exists encrypted binary_data members,
    files !! path = Some encrypted
    /\ decrypt_aes encrypted _PASSWORD = Some binary_data
    /\ md5_checksum binary_data = md5
    /\ zip_read binary_data = Some members
    /\ acc' = fold_left read_member members acc.
Proof.
  unfold extract_archive.
  destruct (files !! path) as [encrypted|]; [|discriminate].
  destruct (decrypt_aes encrypted _PASSWORD) as [binary_data|] eqn:Hd;
    [|discriminate].
  destruct (String.eqb_spec (md5_checksum binary_data) md5) as [E|E];
    simpl; [|discriminate].
  destruct (zip_read binary_data) as [members|] eqn:Hz; [|discriminate].
  intros [= <-]. exists encrypted, binary_data, members. auto.
Qed.

Lemma extract_counts (files : gmap string bytes)
    (entries : list (string * (string * string))) (acc acc' : lines_state) :
  extract files acc entries = Ok acc' ->
  exists mss,
    Forall2 (fun e ms => archive_members files e = Some ms) entries mss
    /\ acc'.1.1 = field_counts (concat mss) ∪ acc.1.1.
Proof.
  revert acc. induction entries as [|[name [path md5]] entries IH];
    intros acc; cbn [extract].
  - intros [= <-]. exists []. split; [constructor|].
    unfold field_counts, nonempty_lines. simpl. set_solver +.
  - destruct (extract_archive files acc (name, (path, md5))) as [acc1|e] eqn:E1;
      simpl; [|discriminate].
    intros H. apply IH in H as (mss & HF & Hn).
    apply extract_archive_Ok in E1
      as (encrypted & binary_data & members & Hf & Hd & _ & Hz & ->).
    exists (members :: mss). split.
    + constructor; [|assumption].
      unfold archive_members. simpl. rewrite Hf, Hd. exact Hz.
    + rewrite Hn, read_member_counts. simpl.
      rewrite field_counts_app. set_solver +.
Qed.

Lemma astype_float32_Raise (v : list string) (e : error) :
  astype_float32 v = Raise e -> exists c, e = ValueError c.
Proof.
  induction v as [|c v IH]; simpl; [discriminate|].
  destruct (float32 c); [|intros [= <-]; eauto].
  destruct (astype_float32 v); simpl; [discriminate|].
  intros [= <-]. apply IH. reflexivity.
Qed.

Lemma astype_float32_2d_Raise (m : list (list string)) (e : error) :
  astype_float32_2d m = Raise e -> exists c, e = ValueError c.
Proof.
  induction m as [|r m IH]; simpl; [discriminate|].
  destruct (astype_float32 r) eqn:Er; simpl.
  - destruct (astype_float32_2d m); simpl; [discriminate|].
    intros [= <-]. apply IH. reflexivity.
  - intros [= <-]. eapply astype_float32_Raise. exact Er.
Qed.

(** [read_table] ends with an indexing or a conversion error, or returns. *)
Lemma read_table_Raise (lines : list (list string)) (e : error) :
  read_table lines = Raise e -> e = IndexError \/ exists c, e = ValueError c.
Proof.
  unfold read_table. destruct (np_array_T lines) as [|first rest].
  - intros [= <-]. left. reflexivity.
  - destruct (astype_float32_2d (map (@tl string) rest)) eqn:E; simpl;
      [discriminate|].
    intros [= <-]. right. eapply astype_float32_2d_Raise. exact E.
Qed.

(** C2. The set [n] holds the field count of every non-empty line of every
    member of every downloaded archive; when it has another size than one
    the post-processing stops with the sample-count assertion, whatever the
    lines are (nothing is transposed or compared), and it raises that
    assertion in no other case. *)
Theorem sample_count_guard (files : gmap string bytes)
    (entries : list (string * (string * string)))
    (n : gset nat) (X y : list (list string)) :
  extract files (∅, [], []) entries = Ok (n, X, y) ->
  (exists mss,
      Forall2 (fun e ms => archive_members files e = Some ms) entries mss
      /\ n = field_counts (concat mss))
  /\ (forall X' y' : list (list string),
         size n <> 1 ->
         post_process n X' y' = Raise InconsistentSampleCount
         /\ legacy_post_process n X' y' = Raise InconsistentSampleCount)
  /\ (size n = 1 ->
      post_process n X y <> Raise InconsistentSampleCount
      /\ legacy_post_process n X y <> Raise InconsistentSampleCount).
Proof.
  intros H. split; [|split].
  - apply extract_counts in H as (mss & HF & Hn). exists mss. split; [exact HF|].
    simpl in Hn. rewrite Hn. set_solver +.
  - intros X' y' Hs. unfold post_process, legacy_post_process.
    destruct (Nat.eqb_spec (size n) 1); [contradiction|]. split; reflexivity.
  - intros Hs. unfold post_process, legacy_post_process. rewrite Hs.
    cbn [Nat.eqb negb]. split.
    + destruct (read_table X) as [[[X_row X_col] Xm]|e] eqn:EX;
        cbn -[remove_allzeros_columns];
        [|apply read_table_Raise in EX as [->|[c ->]]; discriminate].
      destruct (remove_allzeros_columns _ _) as [Xm' X_col'].
      destruct (read_table y) as [[[y_row y_col] ym]|e] eqn:Ey; simpl;
        [|apply read_table_Raise in Ey as [->|[c ->]]; discriminate].
      destruct (np_all_eq X_row y_row); simpl; discriminate.
    + destruct (read_table X) as [[[X_row X_col] Xm]|e] eqn:EX; simpl;
        [|apply read_table_Raise in EX as [->|[c ->]]; discriminate].
      destruct (read_table y) as [[[y_row y_col] ym]|e] eqn:Ey; simpl;
        [|apply read_table_Raise in Ey as [->|[c ->]]; discriminate].
      destruct (np_all_eq X_row y_row); simpl; discriminate.
Qed.


(** C3. Each downloaded archive is decrypted with the fixed password and
    the checksum of the plaintext is compared with the expected one: on a
    difference the extraction ends with the checksum assertion, for this
    archive and for any list of archives it heads, before the plaintext is
    opened; on equality the members are read. An extraction that returns
    has verified every archive it used. *)
Theorem archive_checksum_verified (files : gmap string bytes)
    (acc : lines_state) (name path md5 : string)
    (encrypted binary_data : bytes) :
  files !! path = Some encrypted ->
  decrypt_aes encrypted _PASSWORD = Some binary_data ->
  (md5_checksum binary_data <> md5 ->
   forall rest,
     extract_archive files acc (name, (path, md5)) = Raise (MD5Mismatch name)
     /\ extract files acc ((name, (path, md5)) :: rest)
        = Raise (MD5Mismatch name))
  /\ (md5_checksum binary_data = md5 ->
      extract_archive files acc (name, (path, md5))
      = match zip_read binary_data with
        | Some members => Ok (fold_left read_member members acc)
        | None => Raise (BadZipFile name)
        end)
  /\ (forall entries acc0 acc',
         extract files acc0 entries = Ok acc' ->
         Forall (fun e =>
                   exists enc plain,
                     files !! e.2.1 = Some enc
                     /\ decrypt_aes enc _PASSWORD = Some plain
                     /\ md5_checksum plain = e.2.2) entries).
Proof.
  intros Hf Hd. split; [|split].
  - intros Hne rest.
    assert (E : extract_archive files acc (name, (path, md5))
                = Raise (MD5Mismatch name)).
    { unfold extract_archive. rewrite Hf, Hd.
      destruct (String.eqb_spec (md5_checksum binary_data) md5);
        [contradiction | reflexivity]. }
    split; [exact E|]. cbn [extract]. rewrite E. reflexivity.
  - intros He. unfold extract_archive. rewrite Hf, Hd.
    destruct (String.eqb_spec (md5_checksum binary_data) md5);
      [reflexivity | contradiction].
  - clear. intros entries.
    induction entries as [|[nm [p m]] entries IH]; intros acc0 acc';
      cbn [extract]; [constructor|].
    destruct (extract_archive files acc0 (nm, (p, m))) as [acc1|e] eqn:E1;
      simpl; [|discriminate].
    intros H. constructor; [|eapply IH; exact H].
    apply extract_archive_Ok in E1
      as (enc & plain & members & H1 & H2 & H3 & _ & _).
    exists enc, plain. auto.
Qed.

(** C1. Once both tables are parsed, the post-processing compares their
    row labels elementwise: it raises the cell-order assertion exactly
    when the two sequences differ, and returns exactly when they are
    equal; the rows it hands on are the common ones. *)
Theorem cell_order_checked (n : gset nat) (X y : list (list string))
    (X_row X_col y_row y_col : list string) (Xm ym : list (list F)) :
  size n = 1 ->
  read_table X = Ok (X_row, X_col, Xm) ->
  read_table y = Ok (y_row, y_col, ym) ->
  (post_process n X y = Raise CellOrderMismatch <-> X_row <> y_row)
  /\ (legacy_post_process n X y = Raise CellOrderMismatch <-> X_row <> y_row)
  /\ ((exists t, post_process n X y = Ok t) <-> X_row = y_row)
  /\ ((exists t, legacy_post_process n X y = Ok t) <-> X_row = y_row)
  /\ (forall t, post_process n X y = Ok t -> t_X_row t = y_row)
  /\ (forall t, legacy_post_process n X y = Ok t -> t_X_row t = y_row).
Proof.
  intros Hs HX Hy. unfold post_process, legacy_post_process.
  rewrite Hs, HX, Hy. cbn -[remove_allzeros_columns np_all_eq].
  destruct (remove_allzeros_columns _ _) as [Xm' X_col'].
  cbn -[np_all_eq].
  destruct (np_all_eq X_row y_row) eqn:E; cbn [negb];
    [apply np_all_eq_true in E | apply np_all_eq_false in E];
    repeat split; intros; try congruence; eauto;
    repeat match goal with
           | H : exists _, _ |- _ => destruct H
           end;
    try discriminate;
    try match goal with
        | H : Ok _ = Ok _ |- _ => inversion H; subst; simpl; congruence
        end.
Qed.


(** *** The species filter *)

(** C6, as the code has it. A column of the primary table is kept exactly
    when its label contains "HUMAN_" (one mask selects the columns and
    their labels). In the newer revision each surviving label is the
    [str.replace] of the marker by the empty text in an input label that
    contains the marker, so a label made of the marker followed by
    marker-free text becomes that text; the pruning of all-zero columns
    then selects among the surviving columns. The older revision keeps
    the surviving labels as they are. *)
Theorem species_filter (n : gset nat) (X y : list (list string))
    (X_row X_col : list string) (Xm : list (list F)) :
  read_table X = Ok (X_row, X_col, Xm) ->
  (forall t, post_process n X y = Ok t ->
     (forall l, In l (t_X_col t) ->
        exists l0, In l0 X_col /\ PyStr.contains "HUMAN_" l0 = true
                   /\ l = PyStr.replace "HUMAN_" "" l0)
     /\ exists pruned,
         t_X_col t
         = select pruned
             (map (PyStr.replace "HUMAN_" "")
                (List.filter (PyStr.contains "HUMAN_") X_col))
         /\ t_X t
            = map (select pruned)
                (map (select (map (PyStr.contains "HUMAN_") X_col)) Xm))
  /\ (forall t, legacy_post_process n X y = Ok t ->
        t_X_col t = List.filter (PyStr.contains "HUMAN_") X_col
        /\ t_X t = map (select (map (PyStr.contains "HUMAN_") X_col)) Xm)
  /\ (forall s, PyStr.contains "HUMAN_" s = false ->
        PyStr.replace "HUMAN_" "" ("HUMAN_" +:+ s) = s
        /\ PyStr.contains "HUMAN_" (PyStr.replace "HUMAN_" "" ("HUMAN_" +:+ s))
           = false).
Proof.
  intros HX. split; [|split].
  - intros t. unfold post_process. destruct (negb (size n =? 1)%nat);
      [discriminate|].
    rewrite HX. cbn -[remove_allzeros_columns np_all_eq].
    unfold remove_allzeros_columns.
    set (pruned := map _ (seq 0 _)).
    destruct (read_table y) as [[[y_row y_col] ym]|]; cbn -[np_all_eq];
      [|discriminate].
    destruct (np_all_eq X_row y_row); cbn [negb]; [|discriminate].
    intros [= <-]. cbn [t_X_col t_X]. rewrite select_map_filter. split.
    + intros l Hl. apply In_select in Hl. apply in_map_iff in Hl as (l0 & <- & Hl0).
      apply List.filter_In in Hl0 as [Hin Hc]. exists l0. auto.
    + exists pruned. split; reflexivity.
  - intros t. unfold legacy_post_process.
    destruct (negb (size n =? 1)%nat); [discriminate|].
    rewrite HX. cbn -[np_all_eq].
    destruct (read_table y) as [[[y_row y_col] ym]|]; cbn -[np_all_eq];
      [|discriminate].
    destruct (np_all_eq X_row y_row); cbn [negb]; [|discriminate].
    intros [= <-]. split; reflexivity.
  - intros s Hs. rewrite PyStr.replace_marker_prefix by exact Hs. auto.
Qed.


(** *** The effects of the loader on the file system *)

(** The content of a dataset directory after each revision's save. *)
Definition saved (t : tables) (d : gmap string artifact) : gmap string artifact :=
  <[ "X_row" := Labels (t_X_row t) ]>
    (<[ "y_col" := Labels (t_y_col t) ]>
       (<[ "y" := Matrix (t_y t) ]>
          (<[ "X_col" := Labels (t_X_col t) ]>
             (<[ "X" := Matrix (t_X t) ]> d)))).

Definition legacy_saved (t : tables) (d : gmap string artifact)
  : gmap string artifact :=
  <[ "y_col" := Labels (t_y_col t) ]>
    (<[ "X_col" := Labels (t_X_col t) ]>
       (<[ "X_row" := Labels (t_X_row t) ]>
          (<[ "y" := Matrix (t_y t) ]>
             (<[ "X" := Matrix (t_X t) ]> d)))).

Lemma saved_X (t : tables) (d : gmap string artifact) :
  saved t d !! "X" = Some (Matrix (t_X t)).
Proof. unfold saved. by simplify_map_eq. Qed.

Lemma legacy_saved_X (t : tables) (d : gmap string artifact) :
  legacy_saved t d !! "X" = Some (Matrix (t_X t)).
Proof. unfold legacy_saved. by simplify_map_eq. Qed.

Lemma write_file_exists (dir name : string) (a : artifact) (s : fs)
    (d : gmap string artifact) :
  datasets s !! dir = Some d ->
  write_file dir name a s
  = (Ok tt, FS (downloads s) (<[ dir := <[ name := a ]> d ]> (datasets s))
              (fetched s)).
Proof. intros H. unfold write_file. rewrite H. reflexivity. Qed.

Lemma save_to_dataset_run (path : string) (t : tables) (s : fs) :
  save_to_dataset path t s
  = match datasets s !! path with
    | None => (Raise (FileNotFoundError (os_path_join path "X")), s)
    | Some d =>
        (Ok tt, FS (downloads s) (<[ path := saved t d ]> (datasets s))
                  (fetched s))
    end.
Proof.
  unfold save_to_dataset, bind.
  destruct (datasets s !! path) as [d|] eqn:E.
  - rewrite (write_file_exists _ _ _ _ d) by exact E.
    repeat (erewrite write_file_exists by (cbn; apply lookup_insert_eq);
            cbn [downloads datasets fetched]; rewrite insert_insert_eq).
    reflexivity.
  - unfold write_file. rewrite E. reflexivity.
Qed.

Lemma legacy_save_run (path : string) (t : tables) (s : fs) :
  legacy_save path t s
  = match datasets s !! path with
    | None => (Raise (FileNotFoundError (os_path_join path "X")), s)
    | Some d =>
        (Ok tt, FS (downloads s) (<[ path := legacy_saved t d ]> (datasets s))
                  (fetched s))
    end.
Proof.
  unfold legacy_save, bind.
  destruct (datasets s !! path) as [d|] eqn:E.
  - rewrite (write_file_exists _ _ _ _ d) by exact E.
    repeat (erewrite write_file_exists by (cbn; apply lookup_insert_eq);
            cbn [downloads datasets fetched]; rewrite insert_insert_eq).
    reflexivity.
  - unfold write_file. rewrite E. reflexivity.
Qed.

(** The local path of the archive of a URL. *)
Definition local_path (filtered_genes : bool) (url : string) : string :=
  os_path_join (download_path filtered_genes) (os_path_basename url).

(** What one run of the download loop does to the file system: the
    dataset directories are untouched, the files that were there stay, and
    the URLs transferred are URLs of the list whose file was missing; each
    is transferred no more often than it is listed. *)
Lemma download_all_effect (v : bool) (l : list (string * string))
    (df : list (string * (string * string))) (s : fs) :
  exists new,
    datasets (download_all (download_path v) l df s).2 = datasets s
    /\ fetched (download_all (download_path v) l df s).2 = new ++ fetched s
    /\ (forall u, count_occ string_dec new u
                  <= count_occ string_dec (map fst l) u)
    /\ (forall u, In u new ->
          downloads s !! local_path v u = None
          /\ is_Some (downloads (download_all (download_path v) l df s).2
                        !! local_path v u))
    /\ (forall p, is_Some (downloads s !! p) ->
          is_Some (downloads (download_all (download_path v) l df s).2 !! p)).
Proof.
  revert df s. induction l as [|[url md5] l IH]; intros df s.
  - exists []. cbn.
    split; [reflexivity|]. split; [reflexivity|].
    split; [intros u; lia|]. split; [intros u []|auto].
  - cbn [download_all]. unfold bind, download_file.
    fold (local_path v url).
    destruct (downloads s !! local_path v url) as [b|] eqn:Ef.
    + destruct (IH (dict_set (os_path_basename url) (local_path v url, md5) df) s)
        as (new & Hd & Hfe & Hc & Hn & Hm).
      exists new.
      split; [exact Hd|]. split; [exact Hfe|]. split; [|split; assumption].
      intros u. specialize (Hc u). cbn [map fst count_occ].
      destruct (string_dec url u); lia.
    + destruct (network url) as [b|] eqn:En.
      * set (s1 := FS (<[ local_path v url := b ]> (downloads s)) (datasets s)
                     (url :: fetched s)).
        destruct (IH (dict_set (os_path_basename url) (local_path v url, md5) df) s1)
          as (new & Hd & Hfe & Hc & Hn & Hm).
        exists (new ++ [url]).
        split; [rewrite Hd; reflexivity|].
        split; [rewrite Hfe; cbn; rewrite <- app_assoc; reflexivity|].
        split; [|split].
        -- intros u. specialize (Hc u). rewrite count_occ_app.
           cbn [map fst count_occ]. destruct (string_dec url u); lia.
        -- intros u Hu. apply in_app_or in Hu as [Hu|[<-|[]]].
           ++ destruct (Hn u Hu) as [H1 H2]. split; [|exact H2].
              cbn in H1. apply lookup_insert_None in H1 as [H1 _]. exact H1.
           ++ split; [exact Ef|]. apply Hm. cbn. rewrite lookup_insert_eq. eauto.
        -- intros p Hp. apply Hm. cbn.
           destruct (decide (local_path v url = p)) as [->|Hne].
           ++ rewrite lookup_insert_eq. eauto.
           ++ rewrite lookup_insert_ne by exact Hne. exact Hp.
      * exists []. cbn.
        split; [reflexivity|]. split; [reflexivity|].
        split; [intros u; lia|]. split; [intros u []|auto].
Qed.


(** What a run may transfer: [new] lists the URLs transferred between the
    states [s] and [s'], newest first. *)
Definition transfers (v : bool) (s s' : fs) (new : list string) : Prop :=
  fetched s' = new ++ fetched s
  /\ (forall u, count_occ string_dec new u
                <= count_occ string_dec (map fst (archives v)) u)
  /\ (forall u, In u new ->
        downloads s !! local_path v u = None
        /\ is_Some (downloads s' !! local_path v u))
  /\ (forall p, is_Some (downloads s !! p) -> is_Some (downloads s' !! p)).

Lemma transfers_refl (v : bool) (s : fs) : transfers v s s [].
Proof.
  split; [reflexivity|]. split; [intros u; apply Nat.le_0_l|].
  split; [intros u []|auto].
Qed.

Lemma transfers_datasets (v : bool) (s : fs) (new : list string)
    (dl : gmap string bytes) (ds ds' : gmap string (gmap string artifact))
    (fe : list string) :
  transfers v s (FS dl ds fe) new -> transfers v s (FS dl ds' fe) new.
Proof. intros H. exact H. Qed.

Ltac build_effect_tac v s p post save_run :=
  unfold bind, gets, lift;
  destruct (download_all_effect v (archives v) [] s)
    as (new & Hd & Hfe & Hc & Hn & Hm);
  destruct (download_all (download_path v) (archives v) [] s)
    as [[df|e] s1]; cbn [snd] in Hd, Hfe, Hn, Hm; exists new;
  [ cbn [fst snd];
    destruct (extract (downloads s1) (∅, [], []) (sorted df))
      as [[[n X] y]|e];
    [ match goal with
      | |- context [post ?a ?b ?c] => destruct (post a b c) as [t|e]
      end;
      [ rewrite save_run, Hd;
        destruct (datasets s !! p) as [d|] eqn:Ep;
        cbn [fst snd datasets];
        [ split; [exact (conj Hfe (conj Hc (conj Hn Hm)))|];
          do 2 eexists; split; reflexivity
        | split; [exact (conj Hfe (conj Hc (conj Hn Hm))) | exact Hd] ]
      | split; [exact (conj Hfe (conj Hc (conj Hn Hm))) | exact Hd] ]
    | split; [exact (conj Hfe (conj Hc (conj Hn Hm))) | exact Hd] ]
  | split; [exact (conj Hfe (conj Hc (conj Hn Hm))) | exact Hd] ].

(** The build transfers what the download loop transfers; it changes the
    dataset directory only when it returns, and then to the saved tables. *)
Lemma build_effect (v : bool) (p : string) (s : fs) :
  exists new,
    transfers v s (build v p s).2 new
    /\ match (build v p s).1 with
       | Ok _ =>
           exists d t, datasets s !! p = Some d
                       /\ datasets (build v p s).2
                          = <[ p := saved t d ]> (datasets s)
       | Raise _ => datasets (build v p s).2 = datasets s
       end.
Proof.
  unfold build. build_effect_tac v s p post_process save_to_dataset_run.
Qed.

Lemma legacy_build_effect (v : bool) (p : string) (s : fs) :
  exists new,
    transfers v s (legacy_build v p s).2 new
    /\ match (legacy_build v p s).1 with
       | Ok _ =>
           exists d t, datasets s !! p = Some d
                       /\ datasets (legacy_build v p s).2
                          = <[ p := legacy_saved t d ]> (datasets s)
       | Raise _ => datasets (legacy_build v p s).2 = datasets s
       end.
Proof.
  unfold legacy_build.
  build_effect_tac v s p legacy_post_process legacy_save_run.
Qed.


Definition preprocessed_path (filtered_genes : bool) : string :=
  if filtered_genes then _5000_PBMC_PREPROCESSED
  else _CITEseq_PBMC_PREPROCESSED.

Definition legacy_preprocessed_path (version_5000genes : bool) : string :=
  if version_5000genes then legacy_5000_PBMC_PREPROCESSED
  else legacy_CITEseq_PBMC_PREPROCESSED.

(** The pinned checksum of the older revision. *)
Definition pinned (version_5000genes : bool) : string :=
  if version_5000genes then _MD5_DS_5000 else _MD5_DS_FULL.

(** With the primary matrix persisted, the newer loader opens the
    directory as it is. *)
Lemma read_cached (v : bool) (s : fs) (d : gmap string artifact) :
  datasets s !! preprocessed_path v = Some d ->
  is_Some (d !! "X") ->
  read_CITEseq_PBMC false v s = (open_store d, s).
Proof.
  intros Hd HX. unfold read_CITEseq_PBMC, bind, ret, path_exists, gets, Dataset, lift.
  fold (preprocessed_path v). rewrite Hd.
  rewrite bool_decide_true by exact HX. cbn. rewrite Hd. reflexivity.
Qed.

(** With the primary matrix persisted, the older loader returns the
    directory when its checksum is the pinned one; otherwise it removes
    the directory and raises. *)
Lemma legacy_read_cached (v : bool) (s : fs) (d : gmap string artifact) :
  datasets s !! legacy_preprocessed_path v = Some d ->
  is_Some (d !! "X") ->
  legacy_read_CITEseq_PBMC false v s
  = if String.eqb (get_md5_checksum d ["y_bin"; "y_prob"]) (pinned v)
    then (Ok d, s)
    else (Raise (InvalidMD5 (legacy_preprocessed_path v)),
          FS (downloads s) (delete (legacy_preprocessed_path v) (datasets s))
             (fetched s)).
Proof.
  intros Hd HX.
  unfold legacy_read_CITEseq_PBMC, bind, ret, path_exists, gets, Dataset, lift.
  fold (legacy_preprocessed_path v). fold (pinned v). rewrite Hd.
  rewrite bool_decide_true by exact HX. cbn. rewrite Hd.
  destruct (String.eqb _ _); cbn; [reflexivity|].
  unfold rmtree, raise. rewrite Hd. reflexivity.
Qed.

(** One run of the newer loader without [override]: what it transfers,
    and what it leaves on disk when it returns. *)
Lemma read_effect (v : bool) (s : fs) :
  exists new,
    transfers v s (read_CITEseq_PBMC false v s).2 new
    /\ forall sco,
        (read_CITEseq_PBMC false v s).1 = Ok sco ->
        exists d,
          datasets (read_CITEseq_PBMC false v s).2 !! preprocessed_path v = Some d
          /\ is_Some (d !! "X") /\ open_store d = Ok sco.
Proof.
  destruct (datasets s !! preprocessed_path v) as [d|] eqn:Hd.
  - destruct (decide (is_Some (d !! "X"))) as [HX|HX].
    + rewrite (read_cached v s d Hd HX). exists []. split; [apply transfers_refl|].
      cbn. intros sco Hs. exists d. auto.
    + unfold read_CITEseq_PBMC, bind, ret, path_exists, gets, Dataset, lift.
      fold (preprocessed_path v). rewrite Hd.
      rewrite bool_decide_false by exact HX. cbn [negb].
      destruct (build_effect v (preprocessed_path v) s) as (new & Ht & Hb).
      destruct (build v (preprocessed_path v) s) as [[[]|e] s'];
        cbn [fst snd] in *; exists new.
      * destruct Hb as (d0 & t & Hd0 & Hs'). rewrite Hs', lookup_insert_eq.
        cbn. split; [exact Ht|]. intros sco Hsco. exists (saved t d0).
        rewrite Hs', lookup_insert_eq. rewrite saved_X. eauto.
      * split; [exact Ht|]. intros sco; discriminate.
  - unfold read_CITEseq_PBMC, bind, ret, path_exists, gets, Dataset, lift.
    fold (preprocessed_path v). rewrite Hd. cbn [negb].
    destruct (build_effect v (preprocessed_path v) s) as (new & Ht & Hb).
    destruct (build v (preprocessed_path v) s) as [[[]|e] s'];
      cbn [fst snd] in *; exists new.
    + destruct Hb as (d0 & t & Hd0 & Hs'). congruence.
    + split; [exact Ht|]. intros sco; discriminate.
Qed.

Lemma transfers_delete (v : bool) (s s' : fs) (new : list string) (p : string) :
  transfers v s s' new ->
  transfers v s (FS (downloads s') (delete p (datasets s')) (fetched s')) new.
Proof. intros H. exact H. Qed.

Lemma legacy_read_effect (v : bool) (s : fs) :
  exists new,
    transfers v s (legacy_read_CITEseq_PBMC false v s).2 new
    /\ forall ds,
        (legacy_read_CITEseq_PBMC false v s).1 = Ok ds ->
        datasets (legacy_read_CITEseq_PBMC false v s).2
          !! legacy_preprocessed_path v = Some ds
        /\ is_Some (ds !! "X")
        /\ String.eqb (get_md5_checksum ds ["y_bin"; "y_prob"]) (pinned v) = true.
Proof.
  destruct (datasets s !! legacy_preprocessed_path v) as [d|] eqn:Hd.
  - destruct (decide (is_Some (d !! "X"))) as [HX|HX].
    + rewrite (legacy_read_cached v s d Hd HX). exists [].
      destruct (String.eqb _ _) eqn:E; cbn;
        (split;
         [first [apply transfers_refl
                | apply transfers_delete, transfers_refl]|]);
        [|intros ds; discriminate].
      intros ds [= <-]. auto.
    + unfold legacy_read_CITEseq_PBMC, bind, ret, path_exists, gets, Dataset, lift.
      fold (legacy_preprocessed_path v). fold (pinned v). rewrite Hd.
      rewrite bool_decide_false by exact HX. cbn [negb].
      destruct (legacy_build_effect v (legacy_preprocessed_path v) s)
        as (new & Ht & Hb).
      destruct (legacy_build v (legacy_preprocessed_path v) s) as [[[]|e] s'];
        cbn [fst snd] in *; exists new.
      * destruct Hb as (d0 & t & Hd0 & Hs'). rewrite Hs', lookup_insert_eq.
        destruct (String.eqb _ _) eqn:E; cbn.
        -- split; [exact Ht|]. intros ds [= <-].
           rewrite Hs', lookup_insert_eq, legacy_saved_X. eauto.
        -- unfold rmtree, raise. rewrite Hs', lookup_insert_eq. cbn.
           split; [exact Ht|]. intros ds; discriminate.
      * split; [exact Ht|]. intros ds; discriminate.
  - unfold legacy_read_CITEseq_PBMC, bind, ret, path_exists, gets, Dataset, lift.
    fold (legacy_preprocessed_path v). fold (pinned v). rewrite Hd. cbn [negb].
    destruct (legacy_build_effect v (legacy_preprocessed_path v) s)
      as (new & Ht & Hb).
    destruct (legacy_build v (legacy_preprocessed_path v) s) as [[[]|e] s'];
      cbn [fst snd] in *; exists new.
    + destruct Hb as (d0 & t & Hd0 & Hs'). congruence.
    + split; [exact Ht|]. intros ds; discriminate.
Qed.


(** The two URLs of a run are different. *)
Lemma archives_listed_once (v : bool) (u : string) :
  count_occ string_dec (map fst (archives v)) u <= 1.
Proof.
  destruct v; cbn [archives combine map fst count_occ];
    repeat match goal with
           | |- context [string_dec ?a ?b] => destruct (string_dec a b)
           end; try lia; exfalso; subst; discriminate.
Qed.

(** Over two consecutive runs no URL is transferred twice, and a URL
    whose archive was on disk before the first run is not transferred. *)
Lemma transfers_twice (v : bool) (s0 s1 s2 : fs) (new1 new2 : list string) :
  transfers v s0 s1 new1 ->
  transfers v s1 s2 new2 ->
  (forall u, count_occ string_dec (fetched s2) u
             <= count_occ string_dec (fetched s0) u + 1)
  /\ (forall u, is_Some (downloads s0 !! local_path v u) ->
        count_occ string_dec (fetched s2) u
        = count_occ string_dec (fetched s0) u).
Proof.
  intros (Hf1 & Hc1 & Hn1 & Hm1) (Hf2 & Hc2 & Hn2 & Hm2).
  rewrite Hf2, Hf1. split; intros u.
  - rewrite !count_occ_app.
    pose proof (archives_listed_once v u) as Hu.
    specialize (Hc1 u). specialize (Hc2 u).
    destruct (in_dec string_dec u new1) as [Hin|Hout].
    + assert (Hnot : ~ In u new2).
      { intros Hin2. destruct (Hn1 u Hin) as [_ [b Hb]].
        destruct (Hn2 u Hin2) as [Hnone _]. congruence. }
      apply (count_occ_not_In string_dec) in Hnot. lia.
    + apply (count_occ_not_In string_dec) in Hout. lia.
  - intros Hsome. rewrite !count_occ_app.
    assert (H1 : ~ In u new1).
    { intros Hin. destruct (Hn1 u Hin) as [Hnone _].
      destruct Hsome as [b Hb]. congruence. }
    assert (H2 : ~ In u new2).
    { intros Hin. destruct (Hn2 u Hin) as [Hnone _].
      destruct (Hm1 _ Hsome) as [b Hb]. congruence. }
    apply (count_occ_not_In string_dec) in H1, H2. lia.
Qed.

(** C4, as the code has it. With the primary matrix persisted: the older
    loader, finding a checksum other than the pinned one, removes the
    whole persisted directory and raises; nothing is downloaded or
    rebuilt in that call and the cached content is not returned. The
    newer loader computes no checksum of the directory and opens it as it
    is. *)
Theorem checksum_mismatch_removes_and_raises (v : bool) (s : fs)
    (d : gmap string artifact) :
  is_Some (d !! "X") ->
  (datasets s !! legacy_preprocessed_path v = Some d ->
   get_md5_checksum d ["y_bin"; "y_prob"] <> pinned v ->
   legacy_read_CITEseq_PBMC false v s
   = (Raise (InvalidMD5 (legacy_preprocessed_path v)),
      FS (downloads s) (delete (legacy_preprocessed_path v) (datasets s))
         (fetched s)))
  /\ (datasets s !! preprocessed_path v = Some d ->
      read_CITEseq_PBMC false v s = (open_store d, s)).
Proof.
  intros HX. split.
  - intros Hd Hne. rewrite (legacy_read_cached v s d Hd HX).
    destruct (String.eqb_spec (get_md5_checksum d ["y_bin"; "y_prob"]) (pinned v));
      [contradiction | reflexivity].
  - intros Hd. apply read_cached; assumption.
Qed.

(** C5. A local archive that exists is reused without a transfer. Two
    consecutive calls without [override] transfer each URL at most once,
    and not at all when its archive was already on disk; when the first
    call returns, the second finds the persisted primary matrix, skips
    the build (the file system is unchanged, nothing is transferred) and
    returns the same persisted arrays. This holds for both revisions. *)
Theorem loader_idempotent (v : bool) (s0 : fs) :
  let run1 := read_CITEseq_PBMC false v s0 in
  let run2 := read_CITEseq_PBMC false v run1.2 in
  let legacy1 := legacy_read_CITEseq_PBMC false v s0 in
  let legacy2 := legacy_read_CITEseq_PBMC false v legacy1.2 in
  (forall path url, is_Some (downloads s0 !! path) ->
     download_file path url s0 = (Ok tt, s0))
  /\ (forall u, count_occ string_dec (fetched run2.2) u
                <= count_occ string_dec (fetched s0) u + 1)
  /\ (forall u, is_Some (downloads s0 !! local_path v u) ->
        count_occ string_dec (fetched run2.2) u
        = count_occ string_dec (fetched s0) u)
  /\ (forall sco, run1.1 = Ok sco -> run2 = (Ok sco, run1.2))
  /\ (forall u, count_occ string_dec (fetched legacy2.2) u
                <= count_occ string_dec (fetched s0) u + 1)
  /\ (forall u, is_Some (downloads s0 !! local_path v u) ->
        count_occ string_dec (fetched legacy2.2) u
        = count_occ string_dec (fetched s0) u)
  /\ (forall ds, legacy1.1 = Ok ds -> legacy2 = (Ok ds, legacy1.2)).
Proof.
  intros run1 run2 legacy1 legacy2. subst run2 legacy2 run1 legacy1.
  destruct (read_effect v s0) as (new1 & Ht1 & Hok1).
  destruct (read_effect v (read_CITEseq_PBMC false v s0).2)
    as (new2 & Ht2 & _).
  destruct (legacy_read_effect v s0) as (lnew1 & Lt1 & Lok1).
  destruct (legacy_read_effect v (legacy_read_CITEseq_PBMC false v s0).2)
    as (lnew2 & Lt2 & _).
  destruct (transfers_twice v _ _ _ _ _ Ht1 Ht2) as [Hc He].
  destruct (transfers_twice v _ _ _ _ _ Lt1 Lt2) as [Lc Le].
  split.
  { intros path url [b Hb]. unfold download_file. rewrite Hb. reflexivity. }
  split; [exact Hc|]. split; [exact He|]. split.
  { intros sco Hsco. destruct (Hok1 sco Hsco) as (d & Hd & HX & Hopen).
    rewrite (read_cached v _ d Hd HX), Hopen. reflexivity. }
  split; [exact Lc|]. split; [exact Le|].
  intros ds Hds. destruct (Lok1 ds Hds) as (Hd & HX & Hsum).
  rewrite (legacy_read_cached v _ ds Hd HX), Hsum. reflexivity.
Qed.


(** *** Where the lines of the archives go *)

(** The fields of the non-empty lines of one member, in order. *)
Definition member_lines (member : string * string) : list (list string) :=
  map (fun line => PyStr.split "," (PyStr.strip line))
    (List.filter (fun line => negb (String.length line =? 0)%nat)
       (PyStr.split newline (snd member))).

(** ['Protein' in name] *)
Definition is_protein (member : string * string) : bool :=
  PyStr.contains "Protein" (fst member).

Definition is_gene (member : string * string) : bool :=
  negb (is_protein member).

(** The lines of the members that a test on the member name selects. *)
Definition routed (keep : string * string -> bool)
    (members : list (string * string)) : list (list string) :=
  concat (map member_lines (List.filter keep members)).

Lemma routed_app (keep : string * string -> bool)
    (ms1 ms2 : list (string * string)) :
  routed keep (ms1 ++ ms2) = routed keep ms1 ++ routed keep ms2.
Proof. unfold routed. rewrite List.filter_app, map_app, concat_app. reflexivity. Qed.

Lemma read_lines_routed (name data : string) (lines : list string)
    (acc : lines_state) :
  (fold_left (read_line name) lines acc).1.2
  = acc.1.2
    ++ (if PyStr.contains "Protein" name then []
        else map (fun line => PyStr.split "," (PyStr.strip line))
               (List.filter (fun line => negb (String.length line =? 0)%nat)
                  lines))
  /\ (fold_left (read_line name) lines acc).2
     = acc.2
       ++ (if PyStr.contains "Protein" name
           then map (fun line => PyStr.split "," (PyStr.strip line))
                  (List.filter (fun line => negb (String.length line =? 0)%nat)
                     lines)
           else []).
Proof.
  revert acc. induction lines as [|l lines IH]; intros [[n X] y].
  - cbn. destruct (PyStr.contains "Protein" name); rewrite !app_nil_r; auto.
  - cbn [fold_left]. destruct (IH (read_line name (n, X, y) l)) as [E1 E2].
    rewrite E1, E2. clear E1 E2 IH. unfold read_line. cbn [List.filter].
    destruct (String.length l =? 0)%nat; cbn [negb]; [auto|].
    destruct (PyStr.contains "Protein" name); cbn [fst snd map];
      rewrite <- ?app_assoc; auto.
Qed.

Lemma read_members_routed (members : list (string * string))
    (acc : lines_state) :
  (fold_left read_member members acc).1.2 = acc.1.2 ++ routed is_gene members
  /\ (fold_left read_member members acc).2
     = acc.2 ++ routed is_protein members.
Proof.
  revert acc. induction members as [|[name data] members IH]; intros acc.
  - cbn. rewrite !app_nil_r. auto.
  - cbn [fold_left]. destruct (IH (read_member acc (name, data))) as [-> ->].
    unfold read_member.
    destruct (read_lines_routed name data (PyStr.split newline data) acc)
      as [-> ->].
    unfold routed, is_gene, is_protein. cbn [List.filter fst].
    destruct (PyStr.contains "Protein" name); cbn [negb map concat];
      unfold member_lines; cbn [snd]; rewrite ?app_nil_r, <- ?app_assoc; auto.
Qed.

Lemma extract_routed (files : gmap string bytes)
    (entries : list (string * (string * string))) (acc acc' : lines_state) :
  extract files acc entries = Ok acc' ->
  exists mss,
    Forall2 (fun e ms => archive_members files e = Some ms) entries mss
    /\ acc'.1.1 = field_counts (concat mss) ∪ acc.1.1
    /\ acc'.1.2 = acc.1.2 ++ routed is_gene (concat mss)
    /\ acc'.2 = acc.2 ++ routed is_protein (concat mss).
Proof.
  revert acc. induction entries as [|[name [path md5]] entries IH];
    intros acc; cbn [extract].
  - intros [= <-]. exists []. split; [constructor|].
    cbn. rewrite !app_nil_r.
    split; [unfold field_counts, nonempty_lines; cbn; set_solver +|auto].
  - destruct (extract_archive files acc (name, (path, md5))) as [acc1|e] eqn:E1;
      simpl; [|discriminate].
    intros H. apply IH in H as (mss & HF & Hn & HX & Hy).
    apply extract_archive_Ok in E1
      as (encrypted & binary_data & members & Hf & Hd & _ & Hz & ->).
    exists (members :: mss). split.
    + constructor; [|assumption].
      unfold archive_members. simpl. rewrite Hf, Hd. exact Hz.
    + destruct (read_members_routed members acc) as [EX Ey].
      rewrite Hn, HX, Hy, EX, Ey, read_member_counts. cbn [concat].
      rewrite field_counts_app, !routed_app, <- !app_assoc.
      split; [set_solver +|auto].
Qed.

(** Every line is routed to one of the two lists. *)
Lemma routed_split_length (members : list (string * string)) :
  length (routed is_gene members) + length (routed is_protein members)
  = length (nonempty_lines members).
Proof.
  unfold routed, nonempty_lines, is_gene.
  induction members as [|m members IH]; [reflexivity|].
  cbn [List.filter map concat]. rewrite List.filter_app, length_app, <- IH.
  assert (E : length (member_lines m)
              = length (List.filter
                          (fun line => negb (String.length line =? 0)%nat)
                          (PyStr.split newline (snd m)))).
  { unfold member_lines. apply length_map. }
  destruct (is_protein m); cbn [negb map concat]; rewrite ?length_app, <- E; lia.
Qed.

(** A property of the loop state that each line read keeps holds of what
    an extraction returns. *)
Lemma extract_invariant (P : lines_state -> Prop) :
  (forall name acc line, P acc -> P (read_line name acc line)) ->
  forall files entries acc acc',
    P acc -> extract files acc entries = Ok acc' -> P acc'.
Proof.
  intros Hstep files entries.
  assert (Hlines : forall name lines acc,
             P acc -> P (fold_left (read_line name) lines acc)).
  { intros name lines. induction lines as [|l lines IH]; intros acc HP;
      [exact HP|]. cbn [fold_left]. apply IH, Hstep, HP. }
  assert (Hmembers : forall members acc,
             P acc -> P (fold_left read_member members acc)).
  { intros members. induction members as [|[name data] members IH];
      intros acc HP; [exact HP|]. cbn [fold_left]. apply IH.
    unfold read_member. apply Hlines, HP. }
  induction entries as [|[name [path md5]] entries IH]; intros acc acc' HP;
    cbn [extract].
  - intros [= <-]. exact HP.
  - destruct (extract_archive files acc (name, (path, md5))) as [acc1|e] eqn:E1;
      simpl; [|discriminate].
    apply IH.
    apply extract_archive_Ok in E1 as (? & ? & members & _ & _ & _ & _ & ->).
    apply Hmembers, HP.
Qed.

(** The set [n] is the set of the lengths of the lines collected, and no
    line collected is empty. *)
Definition counts_lines (acc : lines_state) : Prop :=
  (forall k, k ∈ acc.1.1 <->
             exists line, In line (acc.1.2 ++ acc.2) /\ length line = k)
  /\ Forall (fun line => 1 <= length line) (acc.1.2 ++ acc.2).

Lemma read_line_counts_lines (name : string) (acc : lines_state)
    (line : string) :
  counts_lines acc -> counts_lines (read_line name acc line).
Proof.
  destruct acc as [[n X] y]. unfold counts_lines, read_line. cbn [fst snd].
  intros [Hn Hp].
  destruct (String.length line =? 0)%nat; [split; assumption|].
  set (l := PyStr.split "," (PyStr.strip line)).
  assert (Hl : 1 <= length l) by apply PyStr.split_length.
  assert (Hy : forall l', In l' (X ++ y ++ [l]) <-> l' = l \/ In l' (X ++ y)).
  { intros l'. rewrite !in_app_iff. cbn [In]. split.
    - intros [H|[H|[H|[]]]]; auto.
    - intros [->|[H|H]]; auto 6. }
  assert (HX : forall l', In l' ((X ++ [l]) ++ y) <-> l' = l \/ In l' (X ++ y)).
  { intros l'. rewrite !in_app_iff. cbn [In]. split.
    - intros [[H|[H|[]]]|H]; auto.
    - intros [->|[H|H]]; auto 6. }
  destruct (PyStr.contains "Protein" name); cbn [fst snd]; split.
  - intros k. rewrite elem_of_union, elem_of_singleton, Hn. split.
    + intros [->|(l' & Hl' & <-)]; [exists l|exists l'];
        (split; [|reflexivity]); apply Hy; auto.
    + intros (l' & Hl' & <-). apply Hy in Hl' as [->|Hl'];
        [left; reflexivity | right; exists l'; auto].
  - rewrite app_assoc. apply Forall_app. split; [exact Hp|].
    constructor; [exact Hl|constructor].
  - intros k. rewrite elem_of_union, elem_of_singleton, Hn. split.
    + intros [->|(l' & Hl' & <-)]; [exists l|exists l'];
        (split; [|reflexivity]); apply HX; auto.
    + intros (l' & Hl' & <-). apply HX in Hl' as [->|Hl'];
        [left; reflexivity | right; exists l'; auto].
  - apply Forall_app in Hp as [HpX Hpy].
    repeat (apply Forall_app; split); auto.
Qed.


Lemma counts_lines_initial : counts_lines (∅, [], []).
Proof.
  split; [|constructor]. intros k. cbn. split.
  - intros H. apply not_elem_of_empty in H. destruct H.
  - intros (line & [] & _).
Qed.

(** X1. The extraction routes every non-empty line of every member of
    every archive by the member's name: to the protein list when the name
    contains 'Protein', to the gene list otherwise; the order of the
    archives, of the members and of the lines is kept, and no line is lost
    or read twice. *)
Theorem extract_routes_by_member_name (files : gmap string bytes)
    (entries : list (string * (string * string)))
    (n : gset nat) (X y : list (list string)) :
  extract files (∅, [], []) entries = Ok (n, X, y) ->
  exists mss,
    Forall2 (fun e ms => archive_members files e = Some ms) entries mss
    /\ X = routed is_gene (concat mss)
    /\ y = routed is_protein (concat mss)
    /\ length X + length y = length (nonempty_lines (concat mss)).
Proof.
  intros H. apply extract_routed in H as (mss & HF & _ & HX & Hy).
  cbn in HX, Hy. subst X y. exists mss.
  split; [exact HF|]. split; [reflexivity|]. split; [reflexivity|].
  apply routed_split_length.
Qed.

(** X2. After an extraction every collected line has at least one field
    and its field count is in the set [n]. When the set has one element
    [m], there is at least one line and every line has [m] fields; when no
    line was collected the set is empty, so the post-processing stops with
    the sample-count assertion. *)
Theorem extracted_lines_rectangular (files : gmap string bytes)
    (entries : list (string * (string * string)))
    (n : gset nat) (X y : list (list string)) :
  extract files (∅, [], []) entries = Ok (n, X, y) ->
  (forall line, In line (X ++ y) -> length line ∈ n /\ 1 <= length line)
  /\ (size n = 1 ->
      exists m, 1 <= m /\ n = {[ m ]} /\ X ++ y <> []
                /\ Forall (fun line => length line = m) (X ++ y))
  /\ (X ++ y = [] ->
      post_process n X y = Raise InconsistentSampleCount
      /\ legacy_post_process n X y = Raise InconsistentSampleCount).
Proof.
  intros H.
  apply (extract_invariant counts_lines read_line_counts_lines) in H;
    [|apply counts_lines_initial].
  destruct H as [Hn Hp]. cbn [fst snd] in Hn, Hp.
  assert (Hall : forall line, In line (X ++ y) ->
                              length line ∈ n /\ 1 <= length line).
  { intros line Hin. split.
    - apply Hn. exists line. auto.
    - rewrite List.Forall_forall in Hp. apply Hp, Hin. }
  split; [exact Hall|]. split.
  - intros Hs. apply size_1_elem_of in Hs as [m Hm].
    apply leibniz_equiv in Hm. subst n. exists m.
    assert (Hin : m ∈ ({[ m ]} : gset nat)) by (apply elem_of_singleton; reflexivity).
    apply Hn in Hin as (l0 & Hl0 & Hlen).
    split; [rewrite <- Hlen; apply (Hall l0 Hl0)|].
    split; [reflexivity|].
    split; [intros E; rewrite E in Hl0; destruct Hl0|].
    apply List.Forall_forall. intros line Hin.
    apply Hall in Hin as [Hin _]. apply elem_of_singleton in Hin. exact Hin.
  - intros E.
    assert (En : n = ∅).
    { apply leibniz_equiv. apply elem_of_equiv_empty. intros k Hk.
      apply Hn in Hk as (line & Hin & _). rewrite E in Hin. destruct Hin. }
    subst n. unfold post_process, legacy_post_process.
    rewrite size_empty. split; reflexivity.
Qed.

(** *** The transposition *)

Lemma map_nth_seq {A : Type} (d : A) (l : list A) (pre : list A) :
  map (fun j => nth j (pre ++ l) d) (seq (length pre) (length l)) = l.
Proof.
  revert pre. induction l as [|a l IH]; intros pre; [reflexivity|].
  cbn [length seq map]. f_equal.
  - rewrite app_nth2 by lia. rewrite Nat.sub_diag. reflexivity.
  - specialize (IH (pre ++ [a])). rewrite <- app_assoc, length_app in IH.
    cbn in IH. rewrite Nat.add_1_r in IH. exact IH.
Qed.

Lemma map_nth_seq_tl {A : Type} (d : A) (l : list A) :
  map (fun j => nth j l d) (seq 1 (length l - 1)) = tl l.
Proof.
  destruct l as [|a l]; [reflexivity|].
  cbn [length tl]. replace (S (length l) - 1) with (length l) by lia.
  exact (map_nth_seq d l [a]).
Qed.

Lemma read_table_nil : read_table [] = Raise IndexError.
Proof. reflexivity. Qed.

(** The cells of column [j] of the lines. *)
Definition column (j : nat) (lines : list (list string)) : list string :=
  map (fun row => nth j row "") lines.

Lemma read_table_cons (r0 : list string) (ls : list (list string)) :
  read_table (r0 :: ls)
  = if (length r0 =? 0)%nat then Raise IndexError
    else
      M <~ astype_float32_2d
             (map (fun j => column j ls) (seq 1 (length r0 - 1))) ;;
      Ok (tl r0, map (hd "") ls, M).
Proof.
  unfold read_table, np_array_T.
  destruct r0 as [|c r0]; [reflexivity|].
  cbn [length Nat.eqb]. replace (S (length r0) - 1) with (length r0) by lia.
  cbn [seq map tl]. rewrite !map_map. cbn [map tl hd].
  replace (map (fun j => nth j (c :: r0) "") (seq 1 (length r0))) with r0
    by (symmetry; exact (map_nth_seq "" r0 [c])).
  replace (map (fun row => nth 0 row "") ls) with (map (hd "") ls)
    by (apply map_ext; intros []; reflexivity).
  reflexivity.
Qed.

Lemma astype_float32_Ok (v : list string) (xs : list F) :
  astype_float32 v = Ok xs -> Forall2 (fun c x => float32 c = Some x) v xs.
Proof.
  revert xs. induction v as [|c v IH]; intros xs; cbn [astype_float32].
  - intros [= <-]. constructor.
  - destruct (float32 c) as [x|] eqn:Ec; [|discriminate].
    destruct (astype_float32 v) as [xs'|]; cbn [rbind]; [|discriminate].
    intros [= <-]. constructor; [exact Ec|apply IH; reflexivity].
Qed.

Lemma astype_float32_2d_Ok (m : list (list string)) (M : list (list F)) :
  astype_float32_2d m = Ok M ->
  Forall2 (fun r r' => Forall2 (fun c x => float32 c = Some x) r r') m M.
Proof.
  revert M. induction m as [|r m IH]; intros M; cbn [astype_float32_2d].
  - intros [= <-]. constructor.
  - destruct (astype_float32 r) as [r'|] eqn:Er; cbn [rbind]; [|discriminate].
    destruct (astype_float32_2d m) as [M'|]; cbn [rbind]; [|discriminate].
    intros [= <-]. constructor; [apply astype_float32_Ok, Er|apply IH; reflexivity].
Qed.

Lemma astype_float32_returns (v : list string) :
  Forall (fun c => is_Some (float32 c)) v -> exists xs, astype_float32 v = Ok xs.
Proof.
  induction 1 as [|c v [x Hx] _ [xs IH]]; cbn [astype_float32]; [eauto|].
  rewrite Hx, IH. cbn. eauto.
Qed.

Lemma astype_float32_2d_returns (m : list (list string)) :
  Forall (Forall (fun c => is_Some (float32 c))) m ->
  exists M, astype_float32_2d m = Ok M.
Proof.
  induction 1 as [|r m Hr _ [M IH]]; cbn [astype_float32_2d]; [eauto|].
  destruct (astype_float32_returns r Hr) as [r' ->]. rewrite IH. cbn. eauto.
Qed.

Lemma astype_float32_culprit (v : list string) (e : error) :
  astype_float32 v = Raise e ->
  exists c, In c v /\ float32 c = None /\ e = ValueError c.
Proof.
  induction v as [|c v IH]; cbn [astype_float32]; [discriminate|].
  destruct (float32 c) eqn:Ec; [|intros [= <-]; exists c; cbn; auto].
  destruct (astype_float32 v); cbn [rbind]; [discriminate|].
  intros [= <-]. destruct IH as (c' & Hin & Hc & He); [reflexivity|].
  exists c'. cbn. auto.
Qed.

Lemma astype_float32_2d_culprit (m : list (list string)) (e : error) :
  astype_float32_2d m = Raise e ->
  exists r c, In r m /\ In c r /\ float32 c = None /\ e = ValueError c.
Proof.
  induction m as [|r m IH]; cbn [astype_float32_2d]; [discriminate|].
  destruct (astype_float32 r) eqn:Er; cbn [rbind].
  - destruct (astype_float32_2d m); cbn [rbind]; [discriminate|].
    intros [= <-]. destruct IH as (r' & c & Hr & Hc & Hf & He); [reflexivity|].
    exists r', c. cbn. auto.
  - intros [= <-]. apply astype_float32_culprit in Er as (c & Hc & Hf & He).
    exists r, c. cbn. auto.
Qed.





(** *** The shape of the tables *)











(** *** Which cells are converted *)

Lemma body_cells (m : nat) (ls : list (list string)) (c : string) :
  Forall (fun l => length l = m) ls ->
  (exists r, In r (map (fun j => column j ls) (seq 1 (m - 1))) /\ In c r)
  <-> (exists line, In line ls /\ In c (tl line)).
Proof.
  intros Hm. rewrite List.Forall_forall in Hm. split.
  - intros (r & Hr & Hc). apply in_map_iff in Hr as (j & <- & Hj).
    apply in_seq in Hj. unfold column in Hc.
    apply in_map_iff in Hc as (line & <- & Hline). exists line.
    split; [exact Hline|]. specialize (Hm line Hline).
    destruct line as [|c0 line]; cbn [length] in Hm; [lia|].
    destruct j as [|j]; [lia|]. cbn [nth tl]. apply nth_In. lia.
  - intros (line & Hline & Hc). specialize (Hm line Hline).
    destruct (In_nth _ _ "" Hc) as (k & Hk & <-).
    destruct line as [|c0 line]; [destruct Hc|]. cbn [tl length] in *.
    exists (column (S k) ls). split.
    + apply in_map_iff. exists (S k). split; [reflexivity|].
      apply in_seq. lia.
    + unfold column. apply in_map_iff. exists (c0 :: line). auto.
Qed.

(** X5. For lines of one length [m >= 1], the first of them the header:
    [read_table] returns exactly when every field after the first, of every
    line after the header, converts to float32. Otherwise it raises
    [ValueError] for such a field that does not convert; it raises nothing
    else, and the header line and the first fields are never converted. *)
Theorem read_table_numeric_body (lines : list (list string)) (m : nat) :
  1 <= m -> lines <> [] -> Forall (fun l => length l = m) lines ->
  ((exists r, read_table lines = Ok r)
   <-> (forall line c, In line (tl lines) -> In c (tl line) ->
                       is_Some (float32 c)))
  /\ (forall e, read_table lines = Raise e ->
        exists line c, In line (tl lines) /\ In c (tl line)
                       /\ float32 c = None /\ e = ValueError c).
Proof.
  intros Hm Hne Hall. destruct lines as [|r0 ls]; [contradiction|].
  apply Forall_cons_iff in Hall as [Hr0 Hls]. rewrite read_table_cons, Hr0.
  cbn [tl]. destruct (Nat.eqb_spec m 0) as [|_]; [lia|].
  pose proof (fun c => body_cells m ls c Hls) as Hcells.
  destruct (astype_float32_2d _) as [M|e0] eqn:EM; cbn [rbind]; split.
  - split; [|eauto]. intros _ line c Hline Hc.
    destruct (proj2 (Hcells c)) as (r & Hr & Hcr); [eauto|].
    apply astype_float32_2d_Ok in EM.
    apply (proj2 (list_elem_of_In _ _)), list_elem_of_lookup in Hr as [i Hi].
    destruct (Forall2_lookup_l _ _ _ _ _ EM Hi) as (r' & _ & HF).
    apply (proj2 (list_elem_of_In _ _)), list_elem_of_lookup in Hcr as [j Hj].
    destruct (Forall2_lookup_l _ _ _ _ _ HF Hj) as (x & _ & Hx). eauto.
  - intros e; discriminate.
  - split; [intros [r Hr]; discriminate|]. intros Hnum. exfalso.
    destruct (astype_float32_2d_returns
                (map (fun j => column j ls) (seq 1 (m - 1)))) as [M HM].
    + apply List.Forall_forall. intros r Hr.
      apply List.Forall_forall. intros c Hc.
      destruct (proj1 (Hcells c)) as (line & Hline & Hcl); eauto.
    + congruence.
  - intros e [= <-].
    apply astype_float32_2d_culprit in EM as (r & c & Hr & Hc & Hf & He).
    destruct (proj1 (Hcells c)) as (line & Hline & Hcl); eauto 8.
Qed.

(** X6. The two revisions of the post-processing end alike: either both
    raise, and then the same exception, or both return, and then with the
    same cell labels, protein matrix and protein labels. The gene table of
    the newer revision is the one of the older revision with the marker
    replaced in the labels and a selection of the columns applied to the
    labels and to every row. *)
Theorem revisions_agree (n : gset nat) (X y : list (list string)) :
  (forall e, post_process n X y = Raise e
             <-> legacy_post_process n X y = Raise e)
  /\ ((exists t, post_process n X y = Ok t)
      <-> (exists t', legacy_post_process n X y = Ok t'))
  /\ (forall t t', post_process n X y = Ok t ->
        legacy_post_process n X y = Ok t' ->
        t_X_row t = t_X_row t' /\ t_y t = t_y t' /\ t_y_col t = t_y_col t'
        /\ exists pruned,
            t_X_col t
            = select pruned (map (PyStr.replace "HUMAN_" "") (t_X_col t'))
            /\ t_X t = map (select pruned) (t_X t')).
Proof.
  unfold post_process, legacy_post_process.
  destruct (negb (size n =? 1)%nat).
  { split; [intros e; reflexivity|]. split.
    - split; intros [t Ht]; discriminate.
    - intros t t' Ht; discriminate. }
  destruct (read_table X) as [[[X_row X_col] Xm]|eX];
    cbn -[remove_allzeros_columns np_all_eq].
  2:{ split; [intros e; reflexivity|]. split.
      - split; intros [t Ht]; discriminate.
      - intros t t' Ht; discriminate. }
  unfold remove_allzeros_columns. set (pruned := map _ (seq 0 _)).
  destruct (read_table y) as [[[y_row y_col] ym]|ey]; cbn -[np_all_eq].
  2:{ split; [intros e; reflexivity|]. split.
      - split; intros [t Ht]; discriminate.
      - intros t t' Ht; discriminate. }
  destruct (np_all_eq X_row y_row); cbn [negb].
  - split; [intros e; split; discriminate|]. split; [split; eauto|].
    intros t t' [= <-] [= <-]. cbn [t_X_row t_y t_y_col t_X_col t_X].
    repeat (split; [reflexivity|]). exists pruned.
    rewrite select_map_filter. split; reflexivity.
  - split; [intros e; reflexivity|]. split.
    + split; intros [t Ht]; discriminate.
    + intros t t' Ht; discriminate.
Qed.


(** *** What a call leaves on disk *)




Lemma legacy_build_Ok (v : bool) (p : string) (s s' : fs) :
  legacy_build v p s = (Ok tt, s') ->
  exists df s1 n X y t d,
    download_all (download_path v) (archives v) [] s = (Ok df, s1)
    /\ extract (downloads s1) (∅, [], []) (sorted df) = Ok (n, X, y)
    /\ legacy_post_process n X y = Ok t
    /\ datasets s !! p = Some d
    /\ s' = FS (downloads s1) (<[ p := legacy_saved t d ]> (datasets s))
              (fetched s1).
Proof.
  unfold legacy_build, bind, gets, lift.
  destruct (download_all_effect v (archives v) [] s) as (new & Hd & _).
  destruct (download_all (download_path v) (archives v) [] s)
    as [[df|e] s1]; cbn [fst snd] in *; [|discriminate].
  destruct (extract (downloads s1) (∅, [], []) (sorted df))
    as [[[n X] y]|e] eqn:Ee; [|discriminate].
  destruct (legacy_post_process n X y) as [t|e] eqn:Et; [|discriminate].
  rewrite legacy_save_run, Hd.
  destruct (datasets s !! p) as [d|] eqn:Ep; [|discriminate].
  intros [= <-]. exists df, s1, n, X, y, t, d. auto 6.
Qed.



(** X8. The older loader, called without [override]: when the call
    raises, either every dataset directory is as it was, or the exception
    is the checksum error and its own directory is gone while the others
    are as they were. In no case is a directory left with the primary
    matrix of a build whose checksum was rejected. *)
Theorem legacy_read_failure (v : bool) (s : fs) (e : error) :
  (legacy_read_CITEseq_PBMC false v s).1 = Raise e ->
  datasets (legacy_read_CITEseq_PBMC false v s).2 = datasets s
  \/ (e = InvalidMD5 (legacy_preprocessed_path v)
      /\ datasets (legacy_read_CITEseq_PBMC false v s).2
         = delete (legacy_preprocessed_path v) (datasets s)).
Proof.
  destruct (datasets s !! legacy_preprocessed_path v) as [d|] eqn:Hd.
  - destruct (decide (is_Some (d !! "X"))) as [HX|HX].
    + rewrite (legacy_read_cached v s d Hd HX).
      destruct (String.eqb _ _); cbn [fst snd]; [discriminate|].
      intros [= <-]. right. auto.
    + unfold legacy_read_CITEseq_PBMC, bind, ret, path_exists, gets, Dataset, lift.
      fold (legacy_preprocessed_path v). fold (pinned v). rewrite Hd.
      rewrite bool_decide_false by exact HX. cbn [negb].
      destruct (legacy_build_effect v (legacy_preprocessed_path v) s)
        as (new & _ & Hb).
      destruct (legacy_build v (legacy_preprocessed_path v) s) as [[[]|e'] s'];
        cbn [fst snd] in *.
      * destruct Hb as (d0 & t & Hd0 & Hs'). rewrite Hs', lookup_insert_eq.
        destruct (String.eqb _ _); cbn [negb fst snd]; [discriminate|].
        unfold rmtree, raise. rewrite Hs', lookup_insert_eq. cbn [fst snd].
        intros [= <-]. right. split; [reflexivity|].
        cbn [datasets]. apply delete_insert_eq.
      * intros _. left. exact Hb.
  - unfold legacy_read_CITEseq_PBMC, bind, ret, path_exists, gets, Dataset, lift.
    fold (legacy_preprocessed_path v). fold (pinned v). rewrite Hd. cbn [negb].
    destruct (legacy_build_effect v (legacy_preprocessed_path v) s)
      as (new & _ & Hb).
    destruct (legacy_build v (legacy_preprocessed_path v) s) as [[[]|e'] s'];
      cbn [fst snd] in *.
    + destruct Hb as (d0 & t & Hd0 & Hs'). congruence.
    + intros _. left. exact Hb.
Qed.

(** [shutil.rmtree(path)] followed by [os.makedirs(path)]. *)
Lemma rmtree_mkdir {B : Type} (p : string) (k : unit -> M B) (s : fs) :
  bind (bind (rmtree p) (fun _ => mkdir p)) k s
  = match datasets s !! p with
    | None => (Raise (FileNotFoundError p), s)
    | Some _ =>
        k tt (FS (downloads s) (<[ p := ∅ ]> (datasets s)) (fetched s))
    end.
Proof.
  unfold bind, rmtree, mkdir.
  destruct (datasets s !! p); [|reflexivity].
  cbn [datasets downloads fetched].
  rewrite lookup_delete_eq, insert_delete_eq. reflexivity.
Qed.

(** X9. [override] needs the directory: when it is missing, [rmtree]
    raises and nothing else happens. When it is there, the call behaves as
    a call without [override] on the directory emptied: what was cached
    has no influence on the result, and the build always runs. This holds
    for both revisions. *)
Theorem override_discards_cache (v : bool) (s : fs) :
  (datasets s !! preprocessed_path v = None ->
   read_CITEseq_PBMC true v s
   = (Raise (FileNotFoundError (preprocessed_path v)), s))
  /\ (datasets s !! legacy_preprocessed_path v = None ->
      legacy_read_CITEseq_PBMC true v s
      = (Raise (FileNotFoundError (legacy_preprocessed_path v)), s))
  /\ (is_Some (datasets s !! preprocessed_path v) ->
      read_CITEseq_PBMC true v s
      = read_CITEseq_PBMC false v
          (FS (downloads s) (<[ preprocessed_path v := ∅ ]> (datasets s))
              (fetched s)))
  /\ (is_Some (datasets s !! legacy_preprocessed_path v) ->
      legacy_read_CITEseq_PBMC true v s
      = legacy_read_CITEseq_PBMC false v
          (FS (downloads s) (<[ legacy_preprocessed_path v := ∅ ]> (datasets s))
              (fetched s))).
Proof.
  unfold read_CITEseq_PBMC, legacy_read_CITEseq_PBMC.
  fold (preprocessed_path v). fold (legacy_preprocessed_path v).
  rewrite !rmtree_mkdir.
  split; [|split; [|split]].
  - intros ->. reflexivity.
  - intros ->. reflexivity.
  - intros [d ->]. reflexivity.
  - intros [d ->]. reflexivity.
Qed.


End Pipeline.



(** *** A small concrete world

    An origin server with two archives, an identity cipher, checksums that
    match the pinned ones, and counts written in decimal: the input of the
    examples below. *)

Module Demo.

Definition digit (c : ascii) : option Z :=
  let n := Z.of_nat (nat_of_ascii c) in
  if ((48 <=? n) && (n <=? 57))%Z then Some (n - 48)%Z else None.

Fixpoint parse_digits (acc : Z) (s : string) : option Z :=
  match s with
  | EmptyString => Some acc
  | String c t =>
      match digit c with
      | None => None
      | Some d => parse_digits (10 * acc + d)%Z t
      end
  end.

Definition float32 (s : string) : option Z :=
  match s with
  | EmptyString => None
  | _ => parse_digits 0 s
  end.

Definition is_zero (x : Z) : bool := (x =? 0)%Z.

Definition gene_archive : bytes := [Byte.x00].
Definition protein_archive : bytes := [Byte.x01].
Definition shuffled_protein_archive : bytes := [Byte.x02].

Definition gene_csv : string :=
  ",c1,c2,c3
HUMAN_CD3E,1,0,2
MOUSE_Actb,5,5,5
HUMAN_None,0,0,0
".

Definition protein_csv : string :=
  ",c1,c2,c3
CD3,10,11,12
CD4,0,1,2
".

(** The protein table with the cells in another order. *)
Definition shuffled_protein_csv : string :=
  ",c1,c3,c2
CD3,10,12,11
CD4,0,2,1
".

Definition gene_lines : list (list string) :=
  [ [""; "c1"; "c2"; "c3"];
    ["HUMAN_CD3E"; "1"; "0"; "2"];
    ["MOUSE_Actb"; "5"; "5"; "5"];
    ["HUMAN_None"; "0"; "0"; "0"] ].

Definition protein_lines : list (list string) :=
  [ [""; "c1"; "c2"; "c3"]; ["CD3"; "10"; "11"; "12"]; ["CD4"; "0"; "1"; "2"] ].

Definition shuffled_protein_lines : list (list string) :=
  [ [""; "c1"; "c3"; "c2"]; ["CD3"; "10"; "12"; "11"]; ["CD4"; "0"; "2"; "1"] ].

(** [network]: the protein URL serves the protein archive (the shuffled
    one when [shuffled]), any other URL the gene archive. *)
Definition network (shuffled : bool) (url : string) : option bytes :=
  if String.eqb url _URL_PROTEIN
  then Some (if shuffled then shuffled_protein_archive else protein_archive)
  else Some gene_archive.

Definition decrypt_aes (b : bytes) (password : string) : option bytes :=
  if String.eqb password _PASSWORD then Some b else None.

Definition md5_checksum (b : bytes) : string :=
  match b with
  | [Byte.x00] => _MD5_FULL
  | [Byte.x01] => _MD5_PROTEIN
  | [Byte.x02] => _MD5_PROTEIN
  | _ => "d41d8cd98f00b204e9800998ecf8427e"
  end.

Definition zip_read (b : bytes) : option (list (string * string)) :=
  match b with
  | [Byte.x00] => Some [("GSE100866_PBMC.rawCountData.csv", gene_csv)]
  | [Byte.x01] => Some [("GSE100866_PBMC.rawCountProtein.csv", protein_csv)]
  | [Byte.x02] =>
      Some [("GSE100866_PBMC.rawCountProtein.csv", shuffled_protein_csv)]
  | _ => None
  end.

Definition DOWNLOAD_DIR : string := "/tmp/downloads".
Definition PREPROCESSED_BASE_DIR : string := "/tmp/preprocessed".
Definition DATA_DIR : string := "/tmp/data".

#[global] Instance artifact_eq_dec : EqDecision (@artifact Z).
Proof. solve_decision. Defined.

#[global] Instance store_error_eq_dec : EqDecision Omic.error.
Proof. solve_decision. Defined.

#[global] Instance error_eq_dec : EqDecision error.
Proof. solve_decision. Defined.

#[global] Instance result_eq_dec {A : Type} `{EqDecision A} :
  EqDecision (result A).
Proof. solve_decision. Defined.

#[global] Instance byte_eq_dec : EqDecision Byte.byte := Byte.byte_eq_dec.

#[global] Instance fs_eq_dec : EqDecision (@fs Z).
Proof. solve_decision. Defined.

#[global] Instance layer_eq_dec : EqDecision (Omic.layer Z).
Proof. solve_decision. Defined.

#[global] Instance storage_eq_dec : EqDecision (Omic.storage Z).
Proof. solve_decision. Defined.

#[global] Instance backing_eq_dec : EqDecision Omic.backing.
Proof. solve_decision. Defined.

#[global] Instance omic_store_eq_dec : EqDecision (Omic.store Z).
Proof. solve_decision. Defined.

(** Closed equations of the concrete world are decided by evaluation. *)
Ltac by_evaluation :=
  repeat apply conj; apply (bool_decide_unpack _); vm_compute; exact I.

(** The directory the older revision persists for the two archives; the
    checksum of this content is the pinned one. *)
Definition persisted : gmap string (@artifact Z) :=
  {[ "X" := Matrix [[1; 0]; [0; 0]; [2; 0]]%Z;
     "y" := Matrix [[10; 0]; [11; 1]; [12; 2]]%Z;
     "X_row" := Labels ["c1"; "c2"; "c3"];
     "X_col" := Labels ["HUMAN_CD3E"; "HUMAN_None"];
     "y_col" := Labels ["CD3"; "CD4"] ]}.

(** The same directory with one count of the primary matrix altered. *)
Definition tampered : gmap string (@artifact Z) :=
  <[ "X" := Matrix [[1; 0]; [0; 0]; [7; 0]]%Z ]> persisted.

Definition get_md5_checksum (ds : gmap string (@artifact Z))
    (excluded_name : list string) : string :=
  if decide (foldr delete ds excluded_name = persisted) then _MD5_DS_FULL
  else "d41d8cd98f00b204e9800998ecf8427e".

Definition files : gmap string bytes :=
  {[ "/tmp/downloads/PBMC_CITEseq_original/GSE100866_PBMC.rawCountData.csv.zip"
       := gene_archive;
     "/tmp/downloads/PBMC_CITEseq_original/GSE100866_PBMC.rawCountProtein.csv.zip"
       := protein_archive ]}.

(** [sorted(download_files.items())] after the download loop. *)
Definition entries : list (string * (string * string)) :=
  [ ("GSE100866_PBMC.rawCountData.csv.zip",
     ("/tmp/downloads/PBMC_CITEseq_original/GSE100866_PBMC.rawCountData.csv.zip",
      _MD5_FULL));
    ("GSE100866_PBMC.rawCountProtein.csv.zip",
     ("/tmp/downloads/PBMC_CITEseq_original/GSE100866_PBMC.rawCountProtein.csv.zip",
      _MD5_PROTEIN)) ].

(** The state after the module is imported: the preprocessed directories
    exist and are empty, nothing is downloaded. *)
Definition fresh : @fs Z :=
  FS ∅
     {[ "/tmp/data/PBMC_citeseq_preprocessed" := ∅;
        "/tmp/data/PBMC_citeseq_5000_preprocessed" := ∅;
        "/tmp/preprocessed/PBMC_preprocessed" := ∅;
        "/tmp/preprocessed/PBMC_5000_preprocessed" := ∅ ]}
     [].

(** A state whose persisted directories hold the tampered content. *)
Definition cached_tampered : @fs Z :=
  FS ∅
     {[ "/tmp/data/PBMC_citeseq_preprocessed" := tampered;
        "/tmp/preprocessed/PBMC_preprocessed" := tampered ]}
     [].

Definition read (shuffled override filtered_genes : bool) : M (Omic.store Z) :=
  read_CITEseq_PBMC is_zero float32 (network shuffled) decrypt_aes md5_checksum
    zip_read DOWNLOAD_DIR DATA_DIR override filtered_genes.

Definition legacy_read (shuffled override version_5000genes : bool)
  : M (gmap string (@artifact Z)) :=
  legacy_read_CITEseq_PBMC float32 (network shuffled) decrypt_aes md5_checksum
    zip_read DOWNLOAD_DIR PREPROCESSED_BASE_DIR get_md5_checksum
    override version_5000genes.

End Demo.

Example demo_extract :
  extract Demo.decrypt_aes Demo.md5_checksum Demo.zip_read Demo.files
    (∅, [], []) Demo.entries
  = Ok ({[ 4 ]}, Demo.gene_lines, Demo.protein_lines).
Proof. Demo.by_evaluation. Qed.

Example demo_first_run :
  fetched (Demo.read false false false Demo.fresh).2
  = [_URL_PROTEIN; _URL_FULL]
  /\ downloads (Demo.read false false false Demo.fresh).2 = Demo.files
  /\ datasets (Demo.read false false false Demo.fresh).2
       !! "/tmp/data/PBMC_citeseq_preprocessed"
     = Some {[ "X" := Matrix [[1]; [0]; [2]]%Z;
               "y" := Matrix [[10; 0]; [11; 1]; [12; 2]]%Z;
               "X_row" := Labels ["c1"; "c2"; "c3"];
               "X_col" := Labels ["CD3E"];
               "y_col" := Labels ["CD3"; "CD4"] ]}.
Proof. Demo.by_evaluation. Qed.

Example demo_legacy_first_run :
  Demo.legacy_read false false false Demo.fresh
  = (Ok Demo.persisted,
     FS Demo.files
        (<[ "/tmp/preprocessed/PBMC_preprocessed" := Demo.persisted ]>
           (datasets Demo.fresh))
        [_URL_PROTEIN; _URL_FULL]).
Proof. Demo.by_evaluation. Qed.

(** The alignment scenario: cells ["c1"; "c2"; "c3"] in the gene table
    and ["c1"; "c3"; "c2"] in the protein table. The call raises and
    nothing is persisted. *)
Example demo_shuffled_run :
  (Demo.read true false false Demo.fresh).1 = Raise CellOrderMismatch
  /\ datasets (Demo.read true false false Demo.fresh).2 = datasets Demo.fresh
  /\ (Demo.legacy_read true false false Demo.fresh).1 = Raise CellOrderMismatch
  /\ datasets (Demo.legacy_read true false false Demo.fresh).2
     = datasets Demo.fresh.
Proof. Demo.by_evaluation. Qed.


(** *** The theorems at the concrete world *)

Lemma cell_order_checked_witness :
  size ({[ 4 ]} : gset nat) = 1
  /\ post_process Demo.is_zero Demo.float32 {[ 4 ]} Demo.gene_lines
       Demo.shuffled_protein_lines
     = Raise CellOrderMismatch.
Proof.
  assert (Hs : size ({[ 4 ]} : gset nat) = 1) by (vm_compute; reflexivity).
  split; [exact Hs|].
  refine (proj2 (proj1 (cell_order_checked Demo.is_zero Demo.float32 {[ 4 ]}
                          Demo.gene_lines Demo.shuffled_protein_lines
                          ["c1"; "c2"; "c3"]
                          ["HUMAN_CD3E"; "MOUSE_Actb"; "HUMAN_None"]
                          ["c1"; "c3"; "c2"] ["CD3"; "CD4"]
                          [[1; 5; 0]; [0; 5; 0]; [2; 5; 0]]%Z
                          [[10; 0]; [12; 2]; [11; 1]]%Z Hs _ _)) _).
  - vm_compute. reflexivity.
  - vm_compute. reflexivity.
  - discriminate.
Defined.

Lemma sample_count_guard_witness :
  post_process Demo.is_zero Demo.float32 {[ 4 ]} Demo.gene_lines
    Demo.protein_lines
  <> Raise InconsistentSampleCount.
Proof.
  refine (proj1 (proj2 (proj2 (sample_count_guard Demo.is_zero Demo.float32
                                 Demo.decrypt_aes Demo.md5_checksum
                                 Demo.zip_read Demo.files Demo.entries
                                 {[ 4 ]} Demo.gene_lines Demo.protein_lines _))
                   _)).
  - vm_compute. reflexivity.
  - vm_compute. reflexivity.
Defined.

(** The gene archive against the checksum expected of the protein
    archive. *)
Lemma archive_checksum_verified_witness :
  extract_archive Demo.decrypt_aes Demo.md5_checksum Demo.zip_read Demo.files
    (∅, [], [])
    ("GSE100866_PBMC.rawCountData.csv.zip",
     ("/tmp/downloads/PBMC_CITEseq_original/GSE100866_PBMC.rawCountData.csv.zip",
      _MD5_PROTEIN))
  = Raise (MD5Mismatch "GSE100866_PBMC.rawCountData.csv.zip").
Proof.
  refine (proj1 (proj1 (archive_checksum_verified Demo.decrypt_aes
                          Demo.md5_checksum Demo.zip_read Demo.files
                          (∅, [], []) _ _ _ Demo.gene_archive
                          Demo.gene_archive _ _) _ [])).
  - vm_compute. reflexivity.
  - vm_compute. reflexivity.
  - vm_compute. discriminate.
Defined.

Lemma checksum_mismatch_witness :
  Demo.legacy_read false false false Demo.cached_tampered
  = (Raise (InvalidMD5 "/tmp/preprocessed/PBMC_preprocessed"),
     FS ∅ {[ "/tmp/data/PBMC_citeseq_preprocessed" := Demo.tampered ]} []).
Proof.
  refine (eq_trans
            (proj1 (checksum_mismatch_removes_and_raises Demo.is_zero
                      Demo.float32 (Demo.network false) Demo.decrypt_aes
                      Demo.md5_checksum Demo.zip_read Demo.DOWNLOAD_DIR
                      Demo.PREPROCESSED_BASE_DIR Demo.DATA_DIR
                      Demo.get_md5_checksum false Demo.cached_tampered
                      Demo.tampered _) _ _) _).
  - vm_compute. eauto.
  - vm_compute. reflexivity.
  - vm_compute. discriminate.
  - vm_compute. reflexivity.
Defined.

(** C4, the claim at the concrete world: the persisted directories hold
    a tampered primary matrix. The older loader removes its directory
    and raises: it downloads nothing, rebuilds nothing, and the directory
    is absent afterwards. The newer loader returns a store over the
    tampered matrix. *)
Lemma checksum_mismatch_no_rebuild :
  (Demo.legacy_read false false false Demo.cached_tampered).1
  = Raise (InvalidMD5 "/tmp/preprocessed/PBMC_preprocessed")
  /\ datasets (Demo.legacy_read false false false Demo.cached_tampered).2
       !! "/tmp/preprocessed/PBMC_preprocessed" = None
  /\ fetched (Demo.legacy_read false false false Demo.cached_tampered).2 = []
  /\ match (Demo.read false false false Demo.cached_tampered).1 with
     | Ok sco =>
         Omic.numpy sco "transcriptomic" = Some [[1; 0]; [0; 0]; [7; 0]]%Z
     | Raise _ => False
     end
  /\ (Demo.read false false false Demo.cached_tampered).2 = Demo.cached_tampered.
Proof. Demo.by_evaluation. Qed.

Lemma species_filter_witness :
  t_X_col (Tables [[1; 0]; [0; 0]; [2; 0]]%Z ["HUMAN_CD3E"; "HUMAN_None"]
             [[10; 0]; [11; 1]; [12; 2]]%Z ["CD3"; "CD4"] ["c1"; "c2"; "c3"])
  = List.filter (PyStr.contains "HUMAN_")
      ["HUMAN_CD3E"; "MOUSE_Actb"; "HUMAN_None"].
Proof.
  refine (proj1 (proj1 (proj2 (species_filter Demo.is_zero Demo.float32
                                 {[ 4 ]} Demo.gene_lines Demo.protein_lines
                                 ["c1"; "c2"; "c3"]
                                 ["HUMAN_CD3E"; "MOUSE_Actb"; "HUMAN_None"]
                                 [[1; 5; 0]; [0; 5; 0]; [2; 5; 0]]%Z _))
                   _ _)).
  - vm_compute. reflexivity.
  - vm_compute. reflexivity.
Defined.

(** C6, the claim at concrete tables. In the newer revision the label
    "HUMHUMAN_AN_" survives and its replacement is "HUMAN_": a surviving
    label that contains the marker. In the older revision the surviving
    label "HUMAN_CD3E" keeps the marker. *)
Lemma marker_survives :
  match post_process Demo.is_zero Demo.float32 {[ 2 ]}
          [[""; "c1"]; ["HUMHUMAN_AN_"; "1"]] [[""; "c1"]; ["CD3"; "1"]] with
  | Ok t => t_X_col t = ["HUMAN_"]
  | Raise _ => False
  end
  /\ PyStr.contains "HUMAN_" "HUMAN_" = true
  /\ match legacy_post_process Demo.float32 {[ 2 ]}
             [[""; "c1"]; ["HUMAN_CD3E"; "1"]] [[""; "c1"]; ["CD3"; "1"]] with
     | Ok t => t_X_col t = ["HUMAN_CD3E"]
     | Raise _ => False
     end
  /\ PyStr.contains "HUMAN_" "HUMAN_CD3E" = true.
Proof. repeat apply conj; vm_compute; reflexivity. Qed.

(** Two calls at the concrete world: the second transfers nothing,
    changes nothing and returns the store of the first. *)
Example demo_second_run :
  Demo.read false false false (Demo.read false false false Demo.fresh).2
  = Demo.read false false false Demo.fresh
  /\ exists sco, (Demo.read false false false Demo.fresh).1 = Ok sco.
Proof. split; [Demo.by_evaluation | vm_compute; eauto]. Qed.



(** *** The further theorems at the concrete world *)

Lemma extract_routes_witness :
  exists mss,
    Forall2 (fun e ms =>
               archive_members Demo.decrypt_aes Demo.zip_read Demo.files e
               = Some ms) Demo.entries mss
    /\ Demo.gene_lines = routed is_gene (concat mss)
    /\ Demo.protein_lines = routed is_protein (concat mss)
    /\ length Demo.gene_lines + length Demo.protein_lines
       = length (nonempty_lines (concat mss)).
Proof.
  refine (extract_routes_by_member_name Demo.decrypt_aes Demo.md5_checksum
            Demo.zip_read Demo.files Demo.entries {[ 4 ]} Demo.gene_lines
            Demo.protein_lines _).
  Demo.by_evaluation.
Defined.

Lemma extracted_lines_witness :
  exists m, 1 <= m /\ ({[ 4 ]} : gset nat) = {[ m ]}
            /\ Demo.gene_lines ++ Demo.protein_lines <> []
            /\ Forall (fun line => length line = m)
                 (Demo.gene_lines ++ Demo.protein_lines).
Proof.
  refine (proj1 (proj2 (extracted_lines_rectangular Demo.is_zero Demo.float32
                          Demo.decrypt_aes Demo.md5_checksum Demo.zip_read
                          Demo.files Demo.entries {[ 4 ]} Demo.gene_lines
                          Demo.protein_lines _)) _).
  - Demo.by_evaluation.
  - vm_compute. reflexivity.
Defined.



Lemma read_table_numeric_body_witness :
  exists r, read_table Demo.float32 Demo.gene_lines = Ok r.
Proof.
  refine (proj2 (proj1 (read_table_numeric_body Demo.float32 Demo.gene_lines 4
                          _ _ _)) _).
  - lia.
  - discriminate.
  - repeat constructor.
  - intros line c Hline Hc. cbn in Hline.
    repeat (destruct Hline as [<-|Hline];
            [cbn in Hc;
             repeat (destruct Hc as [<-|Hc]; [vm_compute; eauto|]);
             destruct Hc|]).
    destruct Hline.
Defined.

Lemma legacy_read_failure_witness :
  datasets (Demo.legacy_read false false false Demo.cached_tampered).2
  = datasets Demo.cached_tampered
  \/ (InvalidMD5 "/tmp/preprocessed/PBMC_preprocessed"
      = InvalidMD5 (legacy_preprocessed_path Demo.PREPROCESSED_BASE_DIR false)
      /\ datasets (Demo.legacy_read false false false Demo.cached_tampered).2
         = delete (legacy_preprocessed_path Demo.PREPROCESSED_BASE_DIR false)
             (datasets Demo.cached_tampered)).
Proof.
  refine (legacy_read_failure Demo.float32 (Demo.network false)
            Demo.decrypt_aes Demo.md5_checksum Demo.zip_read Demo.DOWNLOAD_DIR
            Demo.PREPROCESSED_BASE_DIR Demo.get_md5_checksum false
            Demo.cached_tampered _ _).
  Demo.by_evaluation.
Defined.


End Loader.

(* ===================================================================== *)
(** ** [sisua/models/networks.py] and [sisua/models/modules/networks.py] *)
(* ===================================================================== *)

Module Networks.

(** Python floats that are finite, as rationals; [a < b] on them. *)
Definition Q : Type := QArith_base.Q.

Definition Qltb (a b : Q) : bool := negb (QArith_base.Qle_bool b a).

Definition Q_of_Z (z : Z) : Q := QArith_base.Qmake z 1.

(** The Keras layers that the two classes put into the list handed to
    [Sequential], with the arguments the sources pass. *)
Inductive layer : Type :=
| Input (shape : Z)
| Dropout (rate : Q) (seed : option Z)
| Dense (units : Z) (activation : string) (use_bias : bool) (name : string)
| BatchNormalization
| Activation (activation : string).

(** ["DenseLayer%d" % i] *)
Definition dense_name (i : nat) : string := "DenseLayer" +:+ pretty i.

(** [0. < rate < 1.] *)
Definition is_rate (rate : Q) : bool :=
  Qltb (Q_of_Z 0) rate && Qltb rate (Q_of_Z 1).

(** [sisua/models/networks.py], [DenseNetwork.__init__]: the list [layers].
    [n_layers] is the value of [int(n_layers)]; [range] of a negative
    number is empty. *)
Definition DenseNetwork (n_units n_layers : Z) (activation : string)
    (batchnorm : bool) (input_dropout output_dropout : Q) (seed : Z)
  : list layer :=
  let layers := [] in
  let layers :=
    if is_rate input_dropout
    then layers ++ [Dropout input_dropout (Some seed)] else layers in
  let layers :=
    fold_left
      (fun layers i =>
         let layers :=
           layers ++ [Dense n_units
                        (if batchnorm then "linear" else activation)
                        (if batchnorm then false else true)
                        (dense_name i)] in
         if batchnorm
         then (layers ++ [BatchNormalization]) ++ [Activation activation]
         else layers)
      (seq 0 (Z.to_nat n_layers)) layers in
  if is_rate output_dropout
  then layers ++ [Dropout output_dropout (Some seed)] else layers.

Module Modules.

Inductive exn : Type :=
| AssertionError.

(** The width of the dense layer [i]:
[[
    n = (units // 2**(nlayers - (i + 1)) if decoding else units // 2**i) \
        if pyramid else units
]] *)
Definition width (pyramid decoding : bool) (units : Z) (nlayers i : nat) : Z :=
  if pyramid
  then if decoding
       then (units / 2 ^ (Z.of_nat nlayers - (Z.of_nat i + 1)))%Z
       else (units / 2 ^ Z.of_nat i)%Z
  else units.

(** [sisua/models/modules/networks.py], [DenseNetwork.__init__]: the list
    [layers], or the failed assertion. [nlayers] is the value of
    [int(nlayers)], taken not to be negative; [units] is an integer. *)
Definition DenseNetwork (units : Z) (nlayers : nat) (activation : string)
    (batchnorm : bool) (input_dropout output_dropout layer_dropout : Q)
    (pyramid decoding : bool) (seed : Z) (input_dim : option Z)
  : exn + list layer :=
  let layers := [] in
  if pyramid && negb (units mod 2 ^ Z.of_nat nlayers =? 0)%Z
  then inl AssertionError
  else
    let layers :=
      match input_dim with
      | Some d => layers ++ [Input d]
      | None => layers
      end in
    let layers :=
      if is_rate input_dropout
      then layers ++ [Dropout input_dropout (Some seed)] else layers in
    let layers :=
      fold_left
        (fun layers i =>
           let n := width pyramid decoding units nlayers i in
           let layers :=
             layers ++ [Dense n "linear" (if batchnorm then false else true)
                          (dense_name i)] in
           let layers :=
             if batchnorm then layers ++ [BatchNormalization] else layers in
           let layers := layers ++ [Activation activation] in
           if Qltb (Q_of_Z 0) layer_dropout
              && negb (Z.of_nat i =? Z.of_nat nlayers - 1)%Z
           then layers ++ [Dropout layer_dropout None] else layers)
        (seq 0 nlayers) layers in
    inr (if is_rate output_dropout
         then layers ++ [Dropout output_dropout (Some seed)] else layers).

End Modules.

(** The defaults of the first class with two rates given. *)
Example DenseNetwork_ex :
  DenseNetwork 128 2 "relu" true (QArith_base.Qmake 3 10) (Q_of_Z 0) 8
  = [ Dropout (QArith_base.Qmake 3 10) (Some 8%Z);
      Dense 128 "linear" false "DenseLayer0"; BatchNormalization;
      Activation "relu";
      Dense 128 "linear" false "DenseLayer1"; BatchNormalization;
      Activation "relu" ].
Proof. reflexivity. Qed.

(** A decoder with pyramid widths and dropout between the blocks. *)
Example Modules_DenseNetwork_ex :
  Modules.DenseNetwork 128 3 "relu" false (Q_of_Z 0) (Q_of_Z 0)
    (QArith_base.Qmake 1 2) true true 8 (Some 10%Z)
  = inr [ Input 10;
          Dense 32 "linear" true "DenseLayer0"; Activation "relu";
          Dropout (QArith_base.Qmake 1 2) None;
          Dense 64 "linear" true "DenseLayer1"; Activation "relu";
          Dropout (QArith_base.Qmake 1 2) None;
          Dense 128 "linear" true "DenseLayer2"; Activation "relu" ].
Proof. reflexivity. Qed.

(** *** The loops as concatenations *)

Lemma fold_left_append {A B : Type} (f : B -> list A) (l : list B)
    (acc : list A) :
  fold_left (fun acc i => acc ++ f i) l acc = acc ++ flat_map f l.
Proof.
  revert acc. induction l as [|i l IH]; intros acc; cbn [fold_left flat_map].
  - rewrite app_nil_r. reflexivity.
  - rewrite IH, app_assoc. reflexivity.
Qed.

Lemma fold_left_ext_append {A B : Type} (g : list A -> B -> list A)
    (f : B -> list A) (l : list B) (acc : list A) :
  (forall acc i, g acc i = acc ++ f i) ->
  fold_left g l acc = acc ++ flat_map f l.
Proof.
  intros H. rewrite <- fold_left_append. revert acc.
  induction l as [|i l IH]; intros acc; cbn [fold_left]; [reflexivity|].
  rewrite H. apply IH.
Qed.

(** What one iteration of each loop appends. *)
Definition block (n_units : Z) (activation : string) (batchnorm : bool)
    (i : nat) : list layer :=
  Dense n_units (if batchnorm then "linear" else activation)
    (if batchnorm then false else true) (dense_name i)
  :: (if batchnorm then [BatchNormalization; Activation activation] else []).

Definition modules_block (units : Z) (nlayers : nat) (activation : string)
    (batchnorm : bool) (layer_dropout : Q) (pyramid decoding : bool)
    (i : nat) : list layer :=
  [Dense (Modules.width pyramid decoding units nlayers i) "linear"
     (if batchnorm then false else true) (dense_name i)]
  ++ (if batchnorm then [BatchNormalization] else [])
  ++ [Activation activation]
  ++ (if Qltb (Q_of_Z 0) layer_dropout
         && negb (Z.of_nat i =? Z.of_nat nlayers - 1)%Z
      then [Dropout layer_dropout None] else []).

Definition ends (rate : Q) (seed : Z) : list layer :=
  if is_rate rate then [Dropout rate (Some seed)] else [].

Lemma DenseNetwork_blocks (n_units n_layers : Z) (activation : string)
    (batchnorm : bool) (input_dropout output_dropout : Q) (seed : Z) :
  DenseNetwork n_units n_layers activation batchnorm input_dropout
    output_dropout seed
  = ends input_dropout seed
    ++ flat_map (block n_units activation batchnorm) (seq 0 (Z.to_nat n_layers))
    ++ ends output_dropout seed.
Proof.
  unfold DenseNetwork, ends. cbv zeta.
  rewrite (fold_left_ext_append _ (block n_units activation batchnorm)).
  - destruct (is_rate input_dropout), (is_rate output_dropout);
      cbn [app]; rewrite ?app_nil_r, <- ?app_assoc; reflexivity.
  - intros acc i. unfold block. destruct batchnorm;
      rewrite <- ?app_assoc; reflexivity.
Qed.

Lemma Modules_DenseNetwork_blocks (units : Z) (nlayers : nat)
    (activation : string) (batchnorm : bool)
    (input_dropout output_dropout layer_dropout : Q)
    (pyramid decoding : bool) (seed : Z) (input_dim : option Z) :
  Modules.DenseNetwork units nlayers activation batchnorm input_dropout
    output_dropout layer_dropout pyramid decoding seed input_dim
  = if pyramid && negb (units mod 2 ^ Z.of_nat nlayers =? 0)%Z
    then inl Modules.AssertionError
    else inr (match input_dim with Some d => [Input d] | None => [] end
              ++ ends input_dropout seed
              ++ flat_map (modules_block units nlayers activation batchnorm
                             layer_dropout pyramid decoding) (seq 0 nlayers)
              ++ ends output_dropout seed).
Proof.
  unfold Modules.DenseNetwork, ends. cbv zeta.
  destruct (pyramid && negb (units mod 2 ^ Z.of_nat nlayers =? 0)%Z);
    [reflexivity|]. f_equal.
  rewrite (fold_left_ext_append _
             (modules_block units nlayers activation batchnorm layer_dropout
                pyramid decoding)).
  - destruct input_dim, (is_rate input_dropout), (is_rate output_dropout);
      cbn [app]; rewrite ?app_nil_r, <- ?app_assoc; reflexivity.
  - intros acc i. unfold modules_block.
    destruct batchnorm, (Qltb (Q_of_Z 0) layer_dropout
                         && negb (Z.of_nat i =? Z.of_nat nlayers - 1)%Z);
      cbn [app]; rewrite <- ?app_assoc; reflexivity.
Qed.

(** *** Reading a list of layers *)

Definition dense_names (L : list layer) : list string :=
  flat_map (fun l => match l with Dense _ _ _ name => [name] | _ => [] end) L.

Definition dense_units (L : list layer) : list Z :=
  flat_map (fun l => match l with Dense units _ _ _ => [units] | _ => [] end) L.

(** The dropout layers between the blocks, which carry no seed. *)
Definition is_layer_dropout (l : layer) : bool :=
  match l with
  | Dropout _ None => true
  | _ => false
  end.

Lemma dense_names_app (L1 L2 : list layer) :
  dense_names (L1 ++ L2) = dense_names L1 ++ dense_names L2.
Proof. apply flat_map_app. Qed.

Lemma dense_units_app (L1 L2 : list layer) :
  dense_units (L1 ++ L2) = dense_units L1 ++ dense_units L2.
Proof. apply flat_map_app. Qed.

Lemma dense_names_ends (rate : Q) (seed : Z) : dense_names (ends rate seed) = [].
Proof. unfold ends. destruct (is_rate rate); reflexivity. Qed.

Lemma dense_units_ends (rate : Q) (seed : Z) : dense_units (ends rate seed) = [].
Proof. unfold ends. destruct (is_rate rate); reflexivity. Qed.

Lemma dense_names_blocks (n_units : Z) (activation : string) (batchnorm : bool)
    (l : list nat) :
  dense_names (flat_map (block n_units activation batchnorm) l)
  = map dense_name l.
Proof.
  induction l as [|i l IH]; [reflexivity|].
  cbn [flat_map map]. rewrite dense_names_app, IH.
  unfold block. destruct batchnorm; reflexivity.
Qed.

Lemma dense_names_modules_blocks (units : Z) (nlayers : nat)
    (activation : string) (batchnorm : bool) (layer_dropout : Q)
    (pyramid decoding : bool) (l : list nat) :
  dense_names (flat_map (modules_block units nlayers activation batchnorm
                           layer_dropout pyramid decoding) l)
  = map dense_name l.
Proof.
  induction l as [|i l IH]; [reflexivity|].
  cbn [flat_map map]. rewrite dense_names_app, IH.
  unfold modules_block.
  destruct batchnorm, (Qltb (Q_of_Z 0) layer_dropout
                       && negb (Z.of_nat i =? Z.of_nat nlayers - 1)%Z);
    reflexivity.
Qed.

Lemma dense_units_modules_blocks (units : Z) (nlayers : nat)
    (activation : string) (batchnorm : bool) (layer_dropout : Q)
    (pyramid decoding : bool) (l : list nat) :
  dense_units (flat_map (modules_block units nlayers activation batchnorm
                           layer_dropout pyramid decoding) l)
  = map (Modules.width pyramid decoding units nlayers) l.
Proof.
  induction l as [|i l IH]; [reflexivity|].
  cbn [flat_map map]. rewrite dense_units_app, IH.
  unfold modules_block.
  destruct batchnorm, (Qltb (Q_of_Z 0) layer_dropout
                       && negb (Z.of_nat i =? Z.of_nat nlayers - 1)%Z);
    reflexivity.
Qed.

Lemma dense_name_inj (i j : nat) : dense_name i = dense_name j -> i = j.
Proof.
  unfold dense_name. intros H. cbv [String.append] in H.
  injection H as H. apply pretty_nat_inj in H. exact H.
Qed.

Lemma dense_names_NoDup (n : nat) : NoDup (map dense_name (seq 0 n)).
Proof.
  change (NoDup (dense_name <$> seq 0 n)).
  apply NoDup_fmap_2; [|apply NoDup_seq].
  intros i j. apply dense_name_inj.
Qed.

Lemma length_flat_map_const {A B : Type} (f : A -> list B) (k : nat)
    (l : list A) :
  (forall a, length (f a) = k) -> length (flat_map f l) = k * length l.
Proof.
  intros H. induction l as [|a l IH]; cbn [flat_map length]; [lia|].
  rewrite length_app, H, IH. lia.
Qed.

(** X11. The dense layers of both classes are named "DenseLayer0",
    "DenseLayer1", ... in order, one per iteration, so no two layers of a
    network share a name. The first class builds one layer per iteration
    without batch normalization and three with it, plus one dropout layer
    for each of the two rates that lies strictly between 0 and 1. *)
Theorem dense_layers_named_apart (n_units n_layers : Z) (nlayers : nat)
    (activation : string) (batchnorm : bool)
    (input_dropout output_dropout layer_dropout : Q)
    (pyramid decoding : bool) (seed : Z) (input_dim : option Z) :
  let L := DenseNetwork n_units n_layers activation batchnorm input_dropout
             output_dropout seed in
  dense_names L = map dense_name (seq 0 (Z.to_nat n_layers))
  /\ NoDup (dense_names L)
  /\ length L
     = (if is_rate input_dropout then 1 else 0)
       + (if batchnorm then 3 else 1) * Z.to_nat n_layers
       + (if is_rate output_dropout then 1 else 0)
  /\ (forall L',
         Modules.DenseNetwork n_units nlayers activation batchnorm
           input_dropout output_dropout layer_dropout pyramid decoding seed
           input_dim = inr L' ->
         dense_names L' = map dense_name (seq 0 nlayers)
         /\ NoDup (dense_names L')).
Proof.
  intros L. subst L. rewrite DenseNetwork_blocks.
  rewrite !dense_names_app, !dense_names_ends, dense_names_blocks, app_nil_r.
  cbn [app]. split; [reflexivity|]. split; [apply dense_names_NoDup|]. split.
  - rewrite !length_app.
    rewrite (length_flat_map_const _ (if batchnorm then 3 else 1)).
    + rewrite length_seq. unfold ends.
      destruct (is_rate input_dropout), (is_rate output_dropout);
        cbn [length]; lia.
    + intros i. unfold block. destruct batchnorm; reflexivity.
  - intros L'. rewrite Modules_DenseNetwork_blocks.
    destruct (pyramid && _); [discriminate|]. intros [= <-].
    rewrite !dense_names_app, !dense_names_ends, dense_names_modules_blocks.
    rewrite app_nil_r.
    assert (E : dense_names match input_dim with
                            | Some d => [Input d]
                            | None => []
                            end = []) by (destruct input_dim; reflexivity).
    rewrite E. cbn [app]. split; [reflexivity|apply dense_names_NoDup].
Qed.

(** *** Dropout *)

Lemma is_rate_spec (rate : Q) :
  is_rate rate = true
  <-> QArith_base.Qlt (Q_of_Z 0) rate /\ QArith_base.Qlt rate (Q_of_Z 1).
Proof.
  unfold is_rate, Qltb. rewrite andb_true_iff, !negb_true_iff.
  rewrite <- !not_true_iff_false, !QArith_base.Qle_bool_iff.
  split; intros [H1 H2]; split;
    first [apply QArith_base.Qnot_le_lt; assumption
          | apply QArith_base.Qlt_not_le; assumption].
Qed.

Lemma In_ends (rate : Q) (seed : Z) (l : layer) :
  In l (ends rate seed) <-> is_rate rate = true /\ l = Dropout rate (Some seed).
Proof.
  unfold ends. destruct (is_rate rate); cbn [In]; split.
  - intros [<-|[]]. auto.
  - intros [_ ->]. auto.
  - intros [].
  - intros [H _]. discriminate.
Qed.

(** X12. A dropout layer at either end of a network is built exactly for
    a rate strictly between 0 and 1: a rate of 0, of 1, a negative rate or
    one above 1 adds no layer and raises nothing. Every dropout layer of
    the first class is one of those two and carries the seed. The second
    class adds, between the blocks, dropout layers without a seed whose
    rate is only known to be positive. *)
Theorem dropout_rates_checked (n_units n_layers : Z) (nlayers : nat)
    (activation : string) (batchnorm : bool)
    (input_dropout output_dropout layer_dropout : Q)
    (pyramid decoding : bool) (seed : Z) (input_dim : option Z) :
  let L := DenseNetwork n_units n_layers activation batchnorm input_dropout
             output_dropout seed in
  (forall rate s, In (Dropout rate s) L <->
     s = Some seed /\ (rate = input_dropout \/ rate = output_dropout)
     /\ QArith_base.Qlt (Q_of_Z 0) rate /\ QArith_base.Qlt rate (Q_of_Z 1))
  /\ (forall L' rate s,
         Modules.DenseNetwork n_units nlayers activation batchnorm
           input_dropout output_dropout layer_dropout pyramid decoding seed
           input_dim = inr L' ->
         In (Dropout rate s) L' ->
         (s = Some seed /\ (rate = input_dropout \/ rate = output_dropout)
          /\ QArith_base.Qlt (Q_of_Z 0) rate
          /\ QArith_base.Qlt rate (Q_of_Z 1))
         \/ (s = None /\ rate = layer_dropout
             /\ QArith_base.Qlt (Q_of_Z 0) rate)).
Proof.
  intros L. subst L. split.
  - intros rate s. rewrite DenseNetwork_blocks, !in_app_iff, !In_ends.
    rewrite in_flat_map. split.
    + intros [[H E]|[(i & _ & Hi)|[H E]]].
      * injection E as -> ->. apply is_rate_spec in H. auto.
      * unfold block in Hi. destruct batchnorm; cbn [In] in Hi;
          repeat (destruct Hi as [Hi|Hi]; try discriminate); destruct Hi.
      * injection E as -> ->. apply is_rate_spec in H. auto.
    + intros (-> & Hr & H1 & H2).
      assert (H : is_rate rate = true) by (apply is_rate_spec; auto).
      destruct Hr as [-> | ->]; [left | right; right]; auto.
  - intros L' rate s. rewrite Modules_DenseNetwork_blocks.
    destruct (pyramid && _); [discriminate|]. intros [= <-].
    rewrite !in_app_iff, !In_ends, in_flat_map.
    intros [H|[[H E]|[(i & _ & Hi)|[H E]]]].
    + destruct input_dim; cbn [In] in H; [destruct H as [H|[]]|destruct H].
      discriminate.
    + injection E as -> ->. apply is_rate_spec in H. left. auto.
    + right. unfold modules_block in Hi. rewrite !in_app_iff in Hi.
      destruct Hi as [Hi|[Hi|[Hi|Hi]]].
      * destruct Hi as [Hi|[]]. discriminate.
      * destruct batchnorm; [destruct Hi as [Hi|[]]; discriminate|destruct Hi].
      * destruct Hi as [Hi|[]]. discriminate.
      * destruct (Qltb (Q_of_Z 0) layer_dropout) eqn:Hl; cbn [andb] in Hi;
          [|destruct Hi].
        destruct (negb _); [|destruct Hi]. destruct Hi as [Hi|[]].
        injection Hi as <- <-. split; [reflexivity|]. split; [reflexivity|].
        unfold Qltb in Hl. apply negb_true_iff in Hl.
        apply QArith_base.Qnot_le_lt. intros Hle.
        apply QArith_base.Qle_bool_iff in Hle. congruence.
    + injection E as -> ->. apply is_rate_spec in H. left. auto.
Qed.

(** *** Pyramid widths *)

Lemma rev_map_seq {A : Type} (f : nat -> A) (n : nat) :
  rev (map f (seq 0 n)) = map (fun i => f (n - 1 - i)) (seq 0 n).
Proof.
  induction n as [|n IH]; [reflexivity|].
  rewrite seq_S at 1. cbn [Nat.add]. rewrite map_app, rev_app_distr.
  cbn [map rev app]. rewrite IH. cbn [seq map].
  rewrite <- seq_shift, map_map. f_equal; [f_equal; lia|].
  apply map_ext. intros i. f_equal. lia.
Qed.

Lemma width_mirror (units : Z) (nlayers i : nat) :
  i < nlayers ->
  Modules.width true true units nlayers i
  = Modules.width true false units nlayers (nlayers - 1 - i).
Proof.
  intros Hi. unfold Modules.width. do 2 f_equal. lia.
Qed.

Lemma width_exact (units : Z) (nlayers i : nat) :
  (units mod 2 ^ Z.of_nat nlayers = 0)%Z -> i < nlayers ->
  (Modules.width true false units nlayers i * 2 ^ Z.of_nat i = units)%Z
  /\ (Modules.width true false units nlayers i mod 2 = 0)%Z.
Proof.
  intros Hm Hi. unfold Modules.width.
  apply Z.mod_divide in Hm; [|apply Z.pow_nonzero; lia].
  destruct Hm as [k Hk].
  assert (E : (2 ^ Z.of_nat nlayers
               = 2 * 2 ^ (Z.of_nat nlayers - Z.of_nat i - 1) * 2 ^ Z.of_nat i)%Z).
  { rewrite <- Z.pow_succ_r, <- Z.pow_add_r by lia. f_equal. lia. }
  rewrite E in Hk.
  assert (Ew : (units / 2 ^ Z.of_nat i
                = k * 2 ^ (Z.of_nat nlayers - Z.of_nat i - 1) * 2)%Z).
  { rewrite Hk.
    replace (k * (2 * 2 ^ (Z.of_nat nlayers - Z.of_nat i - 1) * 2 ^ Z.of_nat i))%Z
      with (k * 2 ^ (Z.of_nat nlayers - Z.of_nat i - 1) * 2 * 2 ^ Z.of_nat i)%Z
      by ring.
    apply Z.div_mul. apply Z.pow_nonzero; lia. }
  rewrite Ew. split.
  - rewrite Hk. ring.
  - apply Z.mod_mul. lia.
Qed.

(** X13. With [pyramid], the second class asserts that [units] is a
    multiple of [2 ** nlayers], and fails in no other case. When it
    returns, the widths of the dense layers are: [units] for each layer
    without [pyramid]; with it, for an encoder, [units] halved exactly
    from one layer to the next (layer [i] times [2 ** i] is [units], and
    every width is even), and for a decoder the same widths in the reverse
    order. *)
Theorem pyramid_widths (units : Z) (nlayers : nat) (activation : string)
    (batchnorm : bool) (input_dropout output_dropout layer_dropout : Q)
    (seed : Z) (input_dim : option Z) :
  let build pyramid decoding :=
    Modules.DenseNetwork units nlayers activation batchnorm input_dropout
      output_dropout layer_dropout pyramid decoding seed input_dim in
  (forall pyramid decoding,
      build pyramid decoding = inl Modules.AssertionError
      <-> pyramid = true /\ (units mod 2 ^ Z.of_nat nlayers <> 0)%Z)
  /\ (forall decoding L,
         build false decoding = inr L -> dense_units L = repeat units nlayers)
  /\ (forall Lenc Ldec,
         build true false = inr Lenc -> build true true = inr Ldec ->
         dense_units Ldec = rev (dense_units Lenc)
         /\ length (dense_units Lenc) = nlayers
         /\ forall i w, dense_units Lenc !! i = Some w ->
                        (w * 2 ^ Z.of_nat i = units)%Z /\ (w mod 2 = 0)%Z).
Proof.
  intros build. subst build. cbv beta.
  assert (Hunits : forall pyramid decoding L,
             Modules.DenseNetwork units nlayers activation batchnorm
               input_dropout output_dropout layer_dropout pyramid decoding
               seed input_dim = inr L ->
             dense_units L
             = map (Modules.width pyramid decoding units nlayers)
                 (seq 0 nlayers)).
  { intros pyramid decoding L. rewrite Modules_DenseNetwork_blocks.
    destruct (pyramid && _); [discriminate|]. intros [= <-].
    rewrite !dense_units_app, !dense_units_ends, dense_units_modules_blocks.
    rewrite app_nil_r. destruct input_dim; reflexivity. }
  split; [|split].
  - intros pyramid decoding. rewrite Modules_DenseNetwork_blocks.
    destruct pyramid; cbn [andb].
    + destruct (Z.eqb_spec (units mod 2 ^ Z.of_nat nlayers) 0) as [E|E];
        cbn [negb]; split.
      * discriminate.
      * intros [_ H]. contradiction.
      * auto.
      * reflexivity.
    + split; [discriminate|]. intros [H _]. discriminate.
  - intros decoding L HL. rewrite (Hunits _ _ _ HL). unfold Modules.width.
    clear. generalize 0. induction nlayers as [|n IH]; intros a;
      [reflexivity|]. cbn [seq map repeat]. rewrite IH. reflexivity.
  - intros Lenc Ldec Henc Hdec.
    rewrite (Hunits _ _ _ Henc), (Hunits _ _ _ Hdec).
    rewrite Modules_DenseNetwork_blocks in Henc. cbn [andb] in Henc.
    destruct (Z.eqb_spec (units mod 2 ^ Z.of_nat nlayers) 0) as [E|E];
      cbn [negb] in Henc; [|discriminate].
    split; [|split].
    + rewrite rev_map_seq. apply map_ext_in. intros i Hi.
      apply in_seq in Hi. apply width_mirror. lia.
    + rewrite length_map, length_seq. reflexivity.
    + intros i w Hw.
      change (map (Modules.width true false units nlayers) (seq 0 nlayers))
        with (Modules.width true false units nlayers <$> seq 0 nlayers) in Hw.
      rewrite list_lookup_fmap in Hw.
      destruct (seq 0 nlayers !! i) as [j|] eqn:Ej; [|discriminate].
      apply lookup_seq in Ej as [-> Hi]. cbn -[Modules.width] in Hw.
      injection Hw as <-. apply (width_exact units nlayers i); assumption.
Qed.

(** *** Dropout between the blocks *)

Lemma count_other (k n : nat) :
  length (List.filter (fun i => negb (Z.of_nat i =? Z.of_nat k)%Z) (seq 0 n))
  = if (k <? n)%nat then n - 1 else n.
Proof.
  induction n as [|n IH]; [reflexivity|].
  rewrite seq_S, List.filter_app, length_app, IH. cbn [Nat.add List.filter].
  destruct (Z.eqb_spec (Z.of_nat n) (Z.of_nat k)) as [E|E]; cbn [negb length].
  - apply Nat2Z.inj in E. subst k.
    rewrite Nat.ltb_irrefl. replace (n <? S n)%nat with true
      by (symmetry; apply Nat.ltb_lt; lia). lia.
  - destruct (Nat.ltb_spec k n), (Nat.ltb_spec k (S n)); lia.
Qed.

(** X14. In the second class a positive [layer_dropout] puts one dropout
    layer, without a seed, after every block except the last: a network
    of [nlayers >= 1] blocks has [nlayers - 1] of them, a rate that is
    not positive none. Without a dropout at the output, the last layer of
    a network with at least one block is the activation of its last
    block. *)
Theorem layer_dropout_between_blocks (units : Z) (nlayers : nat)
    (activation : string) (batchnorm : bool)
    (input_dropout output_dropout layer_dropout : Q)
    (pyramid decoding : bool) (seed : Z) (input_dim : option Z)
    (L : list layer) :
  Modules.DenseNetwork units nlayers activation batchnorm input_dropout
    output_dropout layer_dropout pyramid decoding seed input_dim = inr L ->
  length (List.filter is_layer_dropout L)
  = (if Qltb (Q_of_Z 0) layer_dropout then nlayers - 1 else 0)
  /\ (1 <= nlayers -> is_rate output_dropout = false ->
      List.last L (Input 0) = Activation activation).
Proof.
  rewrite Modules_DenseNetwork_blocks.
  destruct (pyramid && _); [discriminate|]. intros [= <-].
  set (blk := modules_block units nlayers activation batchnorm layer_dropout
                pyramid decoding).
  assert (Hblk : forall l,
             length (List.filter is_layer_dropout (flat_map blk l))
             = if Qltb (Q_of_Z 0) layer_dropout
               then length (List.filter
                              (fun i => negb (Z.of_nat i
                                              =? Z.of_nat nlayers - 1)%Z) l)
               else 0).
  { intros l. induction l as [|i l IH].
    - destruct (Qltb _ _); reflexivity.
    - cbn [flat_map List.filter]. rewrite List.filter_app, length_app, IH.
      unfold blk, modules_block.
      destruct (Qltb (Q_of_Z 0) layer_dropout); cbn [andb].
      + destruct (Z.of_nat i =? Z.of_nat nlayers - 1)%Z;
          cbn [negb]; destruct batchnorm; reflexivity.
      + destruct batchnorm; reflexivity. }
  split.
  - rewrite !List.filter_app, !length_app, Hblk.
    assert (E0 : forall r, List.filter is_layer_dropout (ends r seed) = []).
    { intros r. unfold ends. destruct (is_rate r); reflexivity. }
    rewrite !E0.
    assert (E1 : List.filter is_layer_dropout
                   match input_dim with Some d => [Input d] | None => [] end
                 = []) by (destruct input_dim; reflexivity).
    rewrite E1. cbn [length Nat.add]. rewrite Nat.add_0_r.
    destruct (Qltb _ _); [|reflexivity].
    destruct nlayers as [|n]; [reflexivity|].
    rewrite (List.filter_ext _ (fun i => negb (Z.of_nat i =? Z.of_nat n)%Z))
      by (intros i; do 2 f_equal; lia).
    rewrite count_other.
    destruct (Nat.ltb_spec n (S n)); lia.
  - intros Hn Hout. unfold ends at 2. rewrite Hout, app_nil_r.
    destruct nlayers as [|n]; [lia|].
    rewrite seq_S, flat_map_app. cbn [Nat.add flat_map].
    rewrite app_nil_r. unfold blk at 2. unfold modules_block.
    replace (Z.of_nat n =? Z.of_nat (S n) - 1)%Z with true
      by (symmetry; apply Z.eqb_eq; lia).
    rewrite andb_false_r, app_nil_r. rewrite !app_assoc.
    apply last_last.
Qed.

(** X15. With batch normalization, no input layer, no pyramid and a
    [layer_dropout] that is not positive, the second class builds the
    list of layers of the first class. Without batch normalization the
    second class still builds a linear dense layer followed by the
    activation where the first class builds one dense layer with the
    activation, so its network of [nlayers] blocks is [nlayers] layers
    longer. *)
Theorem revisions_coincide (units : Z) (nlayers : nat) (activation : string)
    (input_dropout output_dropout layer_dropout : Q) (decoding : bool)
    (seed : Z) :
  Qltb (Q_of_Z 0) layer_dropout = false ->
  Modules.DenseNetwork units nlayers activation true input_dropout
    output_dropout layer_dropout false decoding seed None
  = inr (DenseNetwork units (Z.of_nat nlayers) activation true input_dropout
           output_dropout seed)
  /\ (forall L,
         Modules.DenseNetwork units nlayers activation false input_dropout
           output_dropout layer_dropout false decoding seed None = inr L ->
         length L
         = length (DenseNetwork units (Z.of_nat nlayers) activation false
                     input_dropout output_dropout seed) + nlayers).
Proof.
  intros Hl. rewrite !Modules_DenseNetwork_blocks, !DenseNetwork_blocks.
  cbn [andb app]. rewrite Nat2Z.id. split.
  - do 3 f_equal. apply flat_map_ext. intros i.
    unfold modules_block, block, Modules.width. rewrite Hl. reflexivity.
  - intros L [= <-]. rewrite !length_app.
    rewrite (length_flat_map_const _ 2), (length_flat_map_const _ 1).
    + rewrite !length_seq. lia.
    + intros i. reflexivity.
    + intros i. unfold modules_block. rewrite Hl. reflexivity.
Qed.

(** *** The theorems at concrete networks *)

Lemma layer_dropout_between_blocks_witness :
  length (List.filter is_layer_dropout
            [ Input 10;
              Dense 32 "linear" true "DenseLayer0"; Activation "relu";
              Dropout (QArith_base.Qmake 1 2) None;
              Dense 64 "linear" true "DenseLayer1"; Activation "relu";
              Dropout (QArith_base.Qmake 1 2) None;
              Dense 128 "linear" true "DenseLayer2"; Activation "relu" ]) = 2
  /\ List.last
       [ Input 10;
         Dense 32 "linear" true "DenseLayer0"; Activation "relu";
         Dropout (QArith_base.Qmake 1 2) None;
         Dense 64 "linear" true "DenseLayer1"; Activation "relu";
         Dropout (QArith_base.Qmake 1 2) None;
         Dense 128 "linear" true "DenseLayer2"; Activation "relu" ]
       (Input 0)
     = Activation "relu".
Proof.
  pose proof (layer_dropout_between_blocks 128 3 "relu" false (Q_of_Z 0)
                (Q_of_Z 0) (QArith_base.Qmake 1 2) true true 8 (Some 10%Z)
                _ eq_refl) as [H1 H2].
  split; [exact H1|]. apply H2; [lia|reflexivity].
Defined.

Lemma revisions_coincide_witness :
  Modules.DenseNetwork 128 2 "relu" true (QArith_base.Qmake 3 10) (Q_of_Z 0)
    (Q_of_Z 0) false false 8 None
  = inr (DenseNetwork 128 2 "relu" true (QArith_base.Qmake 3 10) (Q_of_Z 0) 8).
Proof.
  refine (proj1 (revisions_coincide 128 2 "relu" (QArith_base.Qmake 3 10)
                   (Q_of_Z 0) (Q_of_Z 0) false 8 _)).
  reflexivity.
Defined.

End Networks.

(* ===================================================================== *)
(** ** [sisua/models/single_cell_model.py]: the identifier of a model class *)
(* ===================================================================== *)

Module SingleCellModel.

(** [str.isupper] on one character, for code points below 256: A-Z and
    the Latin-1 capitals U+00C0..U+00DE except the multiplication sign. *)
Definition isupper (c : ascii) : bool :=
  let n := nat_of_ascii c in
  (((65 <=? n) && (n <=? 90))
   || ((192 <=? n) && (n <=? 222) && negb (n =? 215)))%nat.

(** The classproperty [id]:
[[
    name = ''
    for i in class_name:
      if i.isupper():
        name += i
    return name.lower()
]] *)
Definition id (class_name : string) : string :=
  let name := "" in
  let name :=
    fold_left (fun name i => if isupper i then name +:+ String i "" else name)
      (list_ascii_of_string class_name) name in
  PyStr.lower name.

Example id_vae : id "VariationalAutoEncoder" = "vae".
Proof. reflexivity. Qed.

Example id_scvi : id "SCVI" = "scvi".
Proof. reflexivity. Qed.

(** The uppercase letters of a name, in order. *)
Fixpoint capitals (s : string) : string :=
  match s with
  | EmptyString => EmptyString
  | String c t => if isupper c then String c (capitals t) else capitals t
  end.

Lemma append_cons (c : ascii) (a b : string) :
  String c a +:+ b = String c (a +:+ b).
Proof. reflexivity. Qed.

Lemma append_empty_r (s : string) : s +:+ "" = s.
Proof.
  induction s as [|c s IH]; [reflexivity|]. rewrite append_cons, IH. reflexivity.
Qed.

Lemma append_assoc (a b c : string) : (a +:+ b) +:+ c = a +:+ (b +:+ c).
Proof.
  induction a as [|x a IH]; [reflexivity|]. rewrite !append_cons, IH. reflexivity.
Qed.

Lemma id_loop (l : list ascii) (name : string) :
  fold_left (fun name i => if isupper i then name +:+ String i "" else name)
    l name
  = name +:+ capitals (string_of_list_ascii l).
Proof.
  revert name. induction l as [|c l IH]; intros name; cbn [fold_left].
  - cbn [string_of_list_ascii capitals]. symmetry. apply append_empty_r.
  - rewrite IH. cbn [string_of_list_ascii capitals].
    destruct (isupper c); [|reflexivity].
    rewrite append_assoc. reflexivity.
Qed.

Lemma id_capitals (class_name : string) :
  id class_name = PyStr.lower (capitals class_name).
Proof.
  unfold id. cbv zeta. rewrite id_loop.
  rewrite string_of_list_ascii_of_string. reflexivity.
Qed.

Lemma capitals_app (a b : string) :
  capitals (a +:+ b) = capitals a +:+ capitals b.
Proof.
  induction a as [|c a IH]; [reflexivity|].
  rewrite append_cons. cbn [capitals]. rewrite IH.
  destruct (isupper c); reflexivity.
Qed.

Lemma lower_app (a b : string) :
  PyStr.lower (a +:+ b) = PyStr.lower a +:+ PyStr.lower b.
Proof.
  induction a as [|c a IH]; [reflexivity|].
  rewrite append_cons. cbn [PyStr.lower]. rewrite IH. reflexivity.
Qed.

Lemma isupper_lower_char (c : ascii) : isupper (PyStr.lower_char c) = false.
Proof.
  destruct c as [[] [] [] [] [] [] [] []]; vm_compute; reflexivity.
Qed.

Lemma capitals_lower (s : string) : capitals (PyStr.lower s) = "".
Proof.
  induction s as [|c s IH]; cbn; [reflexivity|].
  rewrite isupper_lower_char. exact IH.
Qed.

Lemma capitals_length (s : string) :
  String.length (capitals s) <= String.length s.
Proof.
  induction s as [|c s IH]; cbn; [lia|].
  destruct (isupper c); cbn; lia.
Qed.

Lemma lower_length (s : string) :
  String.length (PyStr.lower s) = String.length s.
Proof. induction s as [|c s IH]; cbn; [reflexivity|]. rewrite IH. reflexivity. Qed.

Lemma capitals_empty (s : string) :
  capitals s = ""
  <-> Forall (fun c => isupper c = false) (list_ascii_of_string s).
Proof.
  induction s as [|c s IH]; cbn [capitals list_ascii_of_string].
  - split; [constructor|reflexivity].
  - destruct (isupper c) eqn:E.
    + split; [discriminate|]. intros H. inversion H; congruence.
    + rewrite IH. split; [intros H; constructor; assumption|].
      intros H. inversion H; assumption.
Qed.

(** X16. The identifier of a model class is made of the uppercase letters
    of the class name, in their order, each in lowercase. So it contains no
    uppercase letter, it is no longer than the name, it is empty exactly
    when the name has no uppercase letter, the identifier of two names put
    together is the two identifiers put together, and lowercase letters,
    digits and underscores of the name have no influence: two classes with
    the same initials share one identifier. *)
Theorem id_is_lowercased_initials (class_name other : string) :
  id (class_name +:+ other) = id class_name +:+ id other
  /\ Forall (fun c => isupper c = false) (list_ascii_of_string (id class_name))
  /\ String.length (id class_name) <= String.length class_name
  /\ (id class_name = ""
      <-> Forall (fun c => isupper c = false)
            (list_ascii_of_string class_name))
  /\ id (PyStr.lower class_name) = ""
  /\ id (class_name +:+ PyStr.lower other) = id class_name.
Proof.
  rewrite !id_capitals, !capitals_app, !lower_app, !capitals_lower.
  split; [reflexivity|]. split.
  { apply capitals_empty, capitals_lower. }
  split.
  { rewrite lower_length. apply capitals_length. }
  split.
  { rewrite <- capitals_empty. generalize (capitals class_name).
    intros s. destruct s; cbn; split; congruence. }
  split; [reflexivity|]. apply append_empty_r.
Qed.

End SingleCellModel.

(* ===================================================================== *)
(** ** [sisua/utils/plot_utils.py]: the points of [plot_imputation] *)
(* ===================================================================== *)

Module PlotUtils.

Inductive exn : Type :=
| IndexError.

(** [a[mask]] for a one-dimensional array and a boolean mask: numpy
    raises [IndexError] when the mask has another length than the array. *)
Definition getitem_mask {A : Type} (a : list A) (mask : list bool)
  : exn + list A :=
  if negb (length mask =? length a)%nat then inl IndexError
  else inr (Loader.select mask a).

(** The first lines of [plot_imputation(original, imputed)], which prepare
    the two rows of [data = np.vstack([x, y])] for the density estimate:
[[
    y = imputed
    x = original
    ymax = 10
    mask = x < ymax
    x = x[mask]
    y = y[mask]
    mask = y < ymax
    x = x[mask]
    y = y[mask]
    l_minimum = np.minimum(x.shape[0], y.shape[0])
    x = x[:l_minimum]
    y = y[:l_minimum]
]]
    for one-dimensional arrays of finite numbers. *)
Definition plot_imputation_data (original imputed : list Networks.Q)
  : exn + (list Networks.Q * list Networks.Q) :=
  let y := imputed in
  let x := original in
  let ymax := Networks.Q_of_Z 10 in
  let mask := map (fun v => Networks.Qltb v ymax) x in
  match getitem_mask x mask with
  | inl e => inl e
  | inr x =>
      match getitem_mask y mask with
      | inl e => inl e
      | inr y =>
          let mask := map (fun v => Networks.Qltb v ymax) y in
          match getitem_mask x mask with
          | inl e => inl e
          | inr x =>
              match getitem_mask y mask with
              | inl e => inl e
              | inr y =>
                  let l_minimum := Nat.min (length x) (length y) in
                  let x := firstn l_minimum x in
                  let y := firstn l_minimum y in
                  inr (x, y)
              end
          end
      end
  end.

Example plot_imputation_data_ex :
  plot_imputation_data
    [Networks.Q_of_Z 1; Networks.Q_of_Z 12; Networks.Q_of_Z 3; Networks.Q_of_Z 4]
    [Networks.Q_of_Z 2; Networks.Q_of_Z 5; Networks.Q_of_Z 15; Networks.Q_of_Z 9]
  = inr ([Networks.Q_of_Z 1; Networks.Q_of_Z 4],
         [Networks.Q_of_Z 2; Networks.Q_of_Z 9]).
Proof. reflexivity. Qed.

(** *** Masks on pairs *)







End PlotUtils.
